(** * Sentinel server: ingestion pipeline, tool-call state handler, event hub

    A shallow embedding of [server/handlers2.go] (package [sentinel]) and of
    the hub that [main] starts, together with the properties the design
    document states about them.

    Conventions of the embedding.
    - A Go function returning [(T, error)] returns [result T]; the error is
      the text of [err.Error()], and [fmt.Errorf("ctx: %w", err)] is string
      concatenation.
    - A Go run-time panic (slice bounds out of range, nil pointer
      dereference) is the [Panicked] outcome; it is never confused with a
      returned error.
    - Pointers are [option]; a slice whose nil-ness the code inspects is an
      [option (list _)], every other slice is a [list].
    - [uuid.New()] draws from a counter kept in the [World]; the [World] also
      records every [CreateChatRequest] call that reaches the Store.
    - [context.Context] arguments and the [fmt.Printf] trace in
      [validateAndDecodeRequest] carry no data the handlers use and are
      omitted. *)

From Stdlib Require Import ZArith NArith List String Lia Bool.
From stdpp Require Import base option list gmap strings pretty.

Local Open Scope string_scope.
Local Open Scope list_scope.

(** ** Go values *)

Inductive result (A : Type) : Type :=
| Ok (a : A)
| Err (e : string).
Arguments Ok {A} a.
Arguments Err {A} e.

Inductive outcome (A : Type) : Type :=
| Returned (a : A)
| Panicked (reason : string).
Arguments Returned {A} a.
Arguments Panicked {A} reason.

Definition bytes := string.

(** [uuid.UUID]: sixteen bytes, read as a number. *)
Definition UUID := N.

Definition slice_out_of_range : string := "slice bounds out of range".
Definition nil_dereference : string := "invalid memory address or nil pointer dereference".

(** [s[n:]] on a slice of length [len(s)]: Go panics when [n > len(s)]. *)
Definition slice_from {A : Type} (s : list A) (n : nat) : outcome (list A) :=
  if (n <=? length s)%nat then Returned (skipn n s) else Panicked slice_out_of_range.

(** [*p] *)
Definition deref {A : Type} (p : option A) : outcome A :=
  match p with
  | Some a => Returned a
  | None => Panicked nil_dereference
  end.

(** ** The go-openai wire types (fields the handlers read) *)

Module ChatMessageImageURL.
Record t := mk { URL : string }.
End ChatMessageImageURL.
Abbreviation ChatMessageImageURL := ChatMessageImageURL.t.

Module ChatMessagePart.
Record t := mk { Type_ : string; Text : string; ImageURL : option ChatMessageImageURL }.
End ChatMessagePart.
Abbreviation ChatMessagePart := ChatMessagePart.t.

Module FunctionCall.
Record t := mk { Name : string; Arguments : string }.
End FunctionCall.
Abbreviation FunctionCall := FunctionCall.t.

Module ToolCall.
Record t := mk { ID : string; Function : FunctionCall }.
End ToolCall.
Abbreviation ToolCall := ToolCall.t.

Module ChatCompletionMessage.
Record t := mk {
  Role : string;
  Content : string;
  MultiContent : option (list ChatMessagePart);
  ToolCalls : list ToolCall
}.
End ChatCompletionMessage.
Abbreviation ChatCompletionMessage := ChatCompletionMessage.t.

Module ChatCompletionChoice.
Record t := mk { Index : Z; Message : ChatCompletionMessage; FinishReason : string }.
End ChatCompletionChoice.
Abbreviation ChatCompletionChoice := ChatCompletionChoice.t.

Module ChatCompletionRequest.
Record t := mk { Model : string; Messages : list ChatCompletionMessage }.
End ChatCompletionRequest.
Abbreviation ChatCompletionRequest := ChatCompletionRequest.t.

Module ChatCompletionResponse.
Record t := mk { ID : string; Choices : list ChatCompletionChoice }.
End ChatCompletionResponse.
Abbreviation ChatCompletionResponse := ChatCompletionResponse.t.

(** ** The server's own types

    The generated declarations are not part of [handlers2.go]; the fields
    below are the ones the handlers construct or read, with the pointer-ness
    their use shows ([&id], [*choice.Message.Id], [&toolCall.Id]). *)

(** [SentinelMessageRole(message.Role)] and
    [SentinelChoiceFinishReason(choice.FinishReason)] are Go conversions
    between string types: the value is kept as it is. *)
Definition SentinelMessageRole := string.
Definition SentinelChoiceFinishReason := string.

(** Modelled from the spec: the declaration of [MessageType] and of its
    constants [Text] and [ImageUrl] is not in [handlers2.go]. The data model
    names the content types [text] and [image-url]; like the role and the
    finish reason the type is a string type, whose zero value is the empty
    string. *)
Definition MessageType := string.
Definition Text : MessageType := "text".
Definition ImageUrl : MessageType := "image-url".
Definition MessageType_zero : MessageType := "".

Module SentinelToolCall.
Record t := mk {
  Id : string;
  ToolId : string;
  Name : option string;
  Arguments : option string
}.
End SentinelToolCall.
Abbreviation SentinelToolCall := SentinelToolCall.t.

Module SentinelMessage.
Record t := mk {
  Id : option string;
  Role : SentinelMessageRole;
  ToolCalls : option (list SentinelToolCall);
  Type_ : option MessageType;
  Content : string
}.
End SentinelMessage.
Abbreviation SentinelMessage := SentinelMessage.t.

Module SentinelChoice.
Record t := mk {
  SentinelId : string;
  Index : Z;
  Message : SentinelMessage;
  FinishReason : SentinelChoiceFinishReason
}.
End SentinelChoice.
Abbreviation SentinelChoice := SentinelChoice.t.

Module SentinelChat.
Record t := mk { RequestData : string; ResponseData : string }.
End SentinelChat.
Abbreviation SentinelChat := SentinelChat.t.

Module Tool.
Record t := mk { Id : UUID; Name : string }.
End Tool.
Abbreviation Tool := Tool.t.

Module ToolCallIds.
Record t := mk { ToolCallId : option string; ToolId : option string }.
End ToolCallIds.
Abbreviation ToolCallIds := ToolCallIds.t.

Module ChoiceIds.
Record t := mk { ChoiceId : string; MessageId : string; ToolCallIds : list ToolCallIds.t }.
End ChoiceIds.
Abbreviation ChoiceIds := ChoiceIds.t.

Module ChatIds.
Record t := mk { ChatId : UUID; ChoiceIds : list ChoiceIds.t }.
End ChatIds.
Abbreviation ChatIds := ChatIds.t.

(** Modelled from the spec: the declarations of [Status] and
    [ChainExecutionState] are not in [handlers2.go]. The data model calls the
    state of a chain execution a closed status enumeration and gives
    pending, approved, rejected and failed as its values. *)
Inductive Status : Type := Pending | Approved | Rejected | Failed.

Module ChainExecutionState.
Record t := mk { ChainExecutionId : UUID; Status_ : Status }.
End ChainExecutionState.
Abbreviation ChainExecutionState := ChainExecutionState.t.

Module Chain.
Record t := mk { ChainId : UUID }.
End Chain.
Abbreviation Chain := Chain.t.

Module RunExecution.
Record t := mk {
  Chains : list ChainExecutionState;
  Toolcall : SentinelToolCall;
  Status_ : Status
}.
End RunExecution.
Abbreviation RunExecution := RunExecution.t.

(** ** The Store interface

    [ToolStore] is the part the conversion functions take; [Store] embeds it.
    A method returning a pointer and an error returns [result (option T)]. Reads are
    functions of the Store's current contents. [CreateChatRequest] gives the
    Store's answer to a write; that the write was issued is recorded in the
    [World] by [store_CreateChatRequest] below. *)

Record ToolStore := {
  GetToolFromNameAndRunId : string -> UUID -> result (option Tool)
}.

Record Store := {
  tool_store :> ToolStore;
  GetToolCall : UUID -> result (option SentinelToolCall);
  GetMessagesForRun : UUID -> result (list SentinelMessage);
  CreateChatRequest :
    UUID -> bytes -> bytes -> list SentinelChoice -> string -> list SentinelMessage ->
    result (option UUID);
  GetSupervisorChains : UUID -> result (list Chain);
  GetChainExecutionFromChainAndToolCall : UUID -> UUID -> result (option UUID);
  GetChainExecutionState : UUID -> result (option ChainExecutionState)
}.

(** ** Library functions the handlers call

    [encoding/json], [encoding/base64] and [github.com/google/uuid] are
    outside the repository; the handlers are stated for any behaviour of
    them. *)
Record Libs := {
  json_Decode_SentinelChat : string -> result SentinelChat;
  base64_DecodeString : string -> result bytes;
  json_Unmarshal_Request : bytes -> result ChatCompletionRequest;
  json_Unmarshal_Response : bytes -> result ChatCompletionResponse;
  json_Marshal_Request : ChatCompletionRequest -> result bytes;
  json_Marshal_Response : ChatCompletionResponse -> result bytes;
  uuid_String : UUID -> string;
  uuid_Parse : string -> result UUID
}.

(** ** Effects: fresh identifiers, Store writes, panics *)

Module CreateChatRequestCall.
Record t := mk {
  runId : UUID;
  jsonRequest : bytes;
  jsonResponse : bytes;
  choices : list SentinelChoice;
  provider : string;
  newRequestMessages : list SentinelMessage
}.
End CreateChatRequestCall.
Abbreviation CreateChatRequestCall := CreateChatRequestCall.t.

Record World := {
  uuid_source : N;
  store_writes : list CreateChatRequestCall
}.

Definition Go (A : Type) : Type := World -> outcome A * World.

Definition ret {A : Type} (a : A) : Go A := fun w => (Returned a, w).

Definition bind {A B : Type} (m : Go A) (k : A -> Go B) : Go B :=
  fun w =>
    match m w with
    | (Returned a, w') => k a w'
    | (Panicked r, w') => (Panicked r, w')
    end.

Definition lift {A : Type} (o : outcome A) : Go A := fun w => (o, w).

Declare Scope go_scope.
Delimit Scope go_scope with go.
Notation "'let*' x ':=' m 'in' k" := (bind m (fun x => k))
  (at level 10, x pattern, m at level 100, k at level 200) : go_scope.
Local Open Scope go_scope.

(** [uuid.New()] *)
Definition uuid_New : Go UUID :=
  fun w => (Returned (uuid_source w),
            {| uuid_source := N.succ (uuid_source w); store_writes := store_writes w |}).

(** [store.CreateChatRequest(...)]: the call is logged, then answered. *)
Definition store_CreateChatRequest (store : Store) (runId : UUID)
    (jsonRequest jsonResponse : bytes) (choices : list SentinelChoice)
    (provider : string) (newRequestMessages : list SentinelMessage)
  : Go (result (option UUID)) :=
  fun w =>
    (Returned (CreateChatRequest store runId jsonRequest jsonResponse choices provider
                 newRequestMessages),
     {| uuid_source := uuid_source w;
        store_writes := store_writes w ++
          [CreateChatRequestCall.mk runId jsonRequest jsonResponse choices provider
             newRequestMessages] |}).

(** ** HTTP responses *)

Definition StatusOK : Z := 200.
Definition StatusBadRequest : Z := 400.
Definition StatusNotFound : Z := 404.
Definition StatusInternalServerError : Z := 500.

Inductive Body : Type :=
| ErrorBody (error details : string)
| JSONToolCall (toolCall : SentinelToolCall)
| JSONChatIds (chatIds : ChatIds)
| JSONMessages (messages : list SentinelMessage)
| JSONRunExecution (execution : RunExecution).

Record Response := { status : Z; body : Body }.

(** Modelled from the spec: [sendErrorResponse] and [respondJSON] are
    declared outside [handlers2.go]. The error body is the uniform pair of a
    short message and a diagnostic string, sent with the given status; a JSON
    response carries the value with the given status. *)
Definition sendErrorResponse (statusCode : Z) (message details : string) : Response :=
  {| status := statusCode; body := ErrorBody message details |}.

Definition respondJSON (data : Body) (statusCode : Z) : Response :=
  {| status := statusCode; body := data |}.

(** ** The ingestion pipeline ([handlers2.go]) *)

Section Pipeline.
Context (libs : Libs).

(** [filterRequestMessages]: cut off the first [n] messages, where [n] is the
    number of messages already logged for the run. *)
Definition filterRequestMessages (requestMessages : list SentinelMessage) (runId : UUID)
    (store : Store) : outcome (result (list SentinelMessage)) :=
  match GetMessagesForRun store runId with
  | Err e => Returned (Err ("error getting messages for run: " +:+ e))
  | Ok messagesForRun =>
      let numMessagesLogged := length messagesForRun in
      match slice_from requestMessages numMessagesLogged with
      | Panicked r => Panicked r
      | Returned newRequestMessages => Returned (Ok newRequestMessages)
      end
  end.

Definition convertToolCall (toolCall : ToolCall) (runId : UUID) (store : ToolStore)
  : Go (result (option SentinelToolCall)) :=
  let name := FunctionCall.Name (ToolCall.Function toolCall) in
  match GetToolFromNameAndRunId store name runId with
  | Err e => ret (Err ("error getting tool: " +:+ e))
  | Ok None => ret (Err ("tool not found: " +:+ name))
  | Ok (Some tool) =>
      let* id := uuid_New in
      ret (Ok (Some {| SentinelToolCall.Id := uuid_String libs id;
                       SentinelToolCall.ToolId := uuid_String libs (Tool.Id tool);
                       SentinelToolCall.Name := Some name;
                       SentinelToolCall.Arguments :=
                         Some (FunctionCall.Arguments (ToolCall.Function toolCall)) |}))
  end.

(** The [range] loop of [convertToolCalls], with [result] as accumulator. *)
Fixpoint convertToolCalls_from (toolCalls : list ToolCall) (runId : UUID) (store : ToolStore)
    (acc : list SentinelToolCall) : Go (result (list SentinelToolCall)) :=
  match toolCalls with
  | [] => ret (Ok acc)
  | toolCall :: rest =>
      let* r := convertToolCall toolCall runId store in
      match r with
      | Err e => ret (Err ("error converting tool call: " +:+ e))
      | Ok None => convertToolCalls_from rest runId store acc
      | Ok (Some converted) => convertToolCalls_from rest runId store (acc ++ [converted])
      end
  end.

Definition convertToolCalls (toolCalls : list ToolCall) (runId : UUID) (store : ToolStore)
  : Go (result (list SentinelToolCall)) :=
  convertToolCalls_from toolCalls runId store [].

(** The [range] loop over [message.MultiContent]: every [image_url] part
    overwrites the type and the content; [content.ImageURL.URL] dereferences
    the part's image pointer. *)
Fixpoint scanMultiContent (parts : list ChatMessagePart) (msgType : MessageType)
    (msgContent : string) : outcome (MessageType * string) :=
  match parts with
  | [] => Returned (msgType, msgContent)
  | content :: rest =>
      if String.eqb (ChatMessagePart.Type_ content) "image_url" then
        match deref (ChatMessagePart.ImageURL content) with
        | Panicked r => Panicked r
        | Returned image => scanMultiContent rest ImageUrl (ChatMessageImageURL.URL image)
        end
      else scanMultiContent rest msgType msgContent
  end.

(** The classification step of [convertMessage]: [msgType] and [msgContent]
    start at their zero values. *)
Definition classifyContent (message : ChatCompletionMessage) : outcome (MessageType * string) :=
  match ChatCompletionMessage.MultiContent message with
  | Some parts => scanMultiContent parts MessageType_zero ""
  | None => Returned (Text, ChatCompletionMessage.Content message)
  end.

Definition convertMessage (message : ChatCompletionMessage) (runId : UUID) (store : ToolStore)
  : Go (result SentinelMessage) :=
  let* r := convertToolCalls (ChatCompletionMessage.ToolCalls message) runId store in
  match r with
  | Err e => ret (Err ("error converting tool calls: " +:+ e))
  | Ok toolCalls =>
      let* classified := lift (classifyContent message) in
      let msgType := fst classified in
      let msgContent := snd classified in
      let* id := uuid_New in
      ret (Ok {| SentinelMessage.Id := Some (uuid_String libs id);
                 SentinelMessage.Role := ChatCompletionMessage.Role message;
                 SentinelMessage.ToolCalls := Some toolCalls;
                 SentinelMessage.Type_ := Some msgType;
                 SentinelMessage.Content := msgContent |})
  end.

(** The [range] loop of [convertChoices]. *)
Fixpoint convertChoices_from (choices : list ChatCompletionChoice) (runId : UUID)
    (store : ToolStore) (acc : list SentinelChoice) : Go (result (list SentinelChoice)) :=
  match choices with
  | [] => ret (Ok acc)
  | choice :: rest =>
      let* r := convertMessage (ChatCompletionChoice.Message choice) runId store in
      match r with
      | Err e => ret (Err ("error converting message: " +:+ e))
      | Ok message =>
          let* id := uuid_New in
          convertChoices_from rest runId store
            (acc ++ [{| SentinelChoice.SentinelId := uuid_String libs id;
                        SentinelChoice.Index := ChatCompletionChoice.Index choice;
                        SentinelChoice.Message := message;
                        SentinelChoice.FinishReason :=
                          ChatCompletionChoice.FinishReason choice |}])
      end
  end.

Definition convertChoices (choices : list ChatCompletionChoice) (runId : UUID)
    (store : ToolStore) : Go (result (list SentinelChoice)) :=
  convertChoices_from choices runId store [].

(** The message loop of [validateAndDecodeRequest]. *)
Fixpoint convertMessages_from (messages : list ChatCompletionMessage) (runId : UUID)
    (store : ToolStore) (acc : list SentinelMessage) : Go (result (list SentinelMessage)) :=
  match messages with
  | [] => ret (Ok acc)
  | message :: rest =>
      let* r := convertMessage message runId store in
      match r with
      | Err e => ret (Err ("error converting messages: " +:+ e))
      | Ok convertedMessage => convertMessages_from rest runId store (acc ++ [convertedMessage])
      end
  end.

Definition validateAndDecodeRequest (encodedData : string) (runId : UUID) (store : ToolStore)
  : Go (result (bytes * list SentinelMessage)) :=
  match base64_DecodeString libs encodedData with
  | Err e => ret (Err ("invalid base64 format: " +:+ e))
  | Ok decodedRequest =>
      match json_Unmarshal_Request libs decodedRequest with
      | Err e => ret (Err ("invalid request format: " +:+ e))
      | Ok v =>
          let* r := convertMessages_from (ChatCompletionRequest.Messages v) runId store [] in
          match r with
          | Err e => ret (Err e)
          | Ok convertedMessages =>
              match json_Marshal_Request libs v with
              | Err e => ret (Err ("error marshalling request: " +:+ e))
              | Ok marshaledRequest => ret (Ok (marshaledRequest, convertedMessages))
              end
          end
      end
  end.

Definition validateAndDecodeResponse (encodedData : string)
  : result (bytes * ChatCompletionResponse) :=
  match base64_DecodeString libs encodedData with
  | Err e => Err ("invalid base64 format: " +:+ e)
  | Ok decodedResponse =>
      match json_Unmarshal_Response libs decodedResponse with
      | Err e => Err ("invalid response format: " +:+ e)
      | Ok v =>
          match json_Marshal_Response libs v with
          | Err e => Err ("error marshalling response: " +:+ e)
          | Ok b => Ok (b, v)
          end
      end
  end.

(** The inner loop of [extractChatIds]. Each iteration has its own
    [toolCall] variable (Go 1.22 loop semantics), so the two pointers of an
    entry point at that iteration's tool call. *)
Definition toolCallIdsOf (toolCall : SentinelToolCall) : ToolCallIds :=
  {| ToolCallIds.ToolCallId := Some (SentinelToolCall.Id toolCall);
     ToolCallIds.ToolId := Some (SentinelToolCall.ToolId toolCall) |}.

Fixpoint appendToolCallIds (toolCalls : list SentinelToolCall) (acc : list ToolCallIds)
  : list ToolCallIds :=
  match toolCalls with
  | [] => acc
  | toolCall :: rest => appendToolCallIds rest (acc ++ [toolCallIdsOf toolCall])
  end.

Definition choiceIdsOf (choice : SentinelChoice) : outcome ChoiceIds :=
  match deref (SentinelMessage.Id (SentinelChoice.Message choice)) with
  | Panicked r => Panicked r
  | Returned messageId =>
      Returned {| ChoiceIds.ChoiceId := SentinelChoice.SentinelId choice;
                  ChoiceIds.MessageId := messageId;
                  ChoiceIds.ToolCallIds :=
                    match SentinelMessage.ToolCalls (SentinelChoice.Message choice) with
                    | Some toolCalls => appendToolCallIds toolCalls []
                    | None => []
                    end |}
  end.

Fixpoint extractChoiceIds_from (choices : list SentinelChoice) (acc : list ChoiceIds)
  : outcome (list ChoiceIds) :=
  match choices with
  | [] => Returned acc
  | choice :: rest =>
      match choiceIdsOf choice with
      | Panicked r => Panicked r
      | Returned choiceIds => extractChoiceIds_from rest (acc ++ [choiceIds])
      end
  end.

Definition extractChatIds (chatId : UUID) (choices : list SentinelChoice) : outcome ChatIds :=
  match extractChoiceIds_from choices [] with
  | Panicked r => Panicked r
  | Returned choiceIds => Returned {| ChatIds.ChatId := chatId; ChatIds.ChoiceIds := choiceIds |}
  end.

(** [apiCreateNewChatHandler]; [body] is the request body, the value is the
    response written to the [http.ResponseWriter]. *)
Definition apiCreateNewChatHandler (body : string) (runId : UUID) (store : Store) : Go Response :=
  match json_Decode_SentinelChat libs body with
  | Err e => ret (sendErrorResponse StatusBadRequest "Invalid JSON format" e)
  | Ok payload =>
  let* req := validateAndDecodeRequest (SentinelChat.RequestData payload) runId store in
  match req with
  | Err e => ret (sendErrorResponse StatusBadRequest ("Request: " +:+ e) "")
  | Ok (jsonRequest, requestMessages) =>
  let* filtered := lift (filterRequestMessages requestMessages runId store) in
  match filtered with
  | Err e =>
      ret (sendErrorResponse StatusBadRequest ("Error filtering request messages: " +:+ e) "")
  | Ok newRequestMessages =>
  match validateAndDecodeResponse (SentinelChat.ResponseData payload) with
  | Err e => ret (sendErrorResponse StatusBadRequest ("Response: " +:+ e) "")
  | Ok (jsonResponse, response) =>
  let* converted := convertChoices (ChatCompletionResponse.Choices response) runId store in
  match converted with
  | Err e => ret (sendErrorResponse StatusBadRequest ("Error converting choices: " +:+ e) "")
  | Ok choices =>
  let* created :=
    store_CreateChatRequest store runId jsonRequest jsonResponse choices "openai"
      newRequestMessages in
  match created with
  | Err e => ret (sendErrorResponse StatusBadRequest ("Error creating chat request: " +:+ e) "")
  | Ok id =>
  let* chatId := lift (deref id) in
  let* chatIds := lift (extractChatIds chatId choices) in
  ret (respondJSON (JSONChatIds chatIds) StatusOK)
  end end end end end end.

End Pipeline.

(** ** The read handlers ([handlers2.go]) *)

Definition apiGetToolCallHandler (id : UUID) (store : Store) : Response :=
  match GetToolCall store id with
  | Err e => sendErrorResponse StatusInternalServerError "error getting tool call" e
  | Ok None => sendErrorResponse StatusNotFound "tool call not found" ""
  | Ok (Some toolCall) => respondJSON (JSONToolCall toolCall) StatusOK
  end.

Definition apiGetRunMessagesHandler (runId : UUID) (store : Store) : Response :=
  match GetMessagesForRun store runId with
  | Err e => sendErrorResponse StatusInternalServerError "error getting messages for run" e
  | Ok messages => respondJSON (JSONMessages messages) StatusOK
  end.

Section ToolCallState.
Context (libs : Libs).

(** [getToolCallStatus] is declared outside [handlers2.go]. The handler calls
    it with the tool call identifier and the Store (not with the chain
    states it has collected), so it is taken as a function of those two. *)
Context (getToolCallStatus : UUID -> Store -> result Status).

(** The chain loop of [apiGetToolCallStateHandler]. [inl response] is a
    [return] from inside the loop after an error response was sent; [inr]
    carries [execution.Chains] out of the loop. *)
Fixpoint collectChainStates (chains : list Chain) (toolCallId : UUID) (store : Store)
    (acc : list ChainExecutionState) : outcome (Response + list ChainExecutionState) :=
  match chains with
  | [] => Returned (inr acc)
  | chain :: rest =>
      match GetChainExecutionFromChainAndToolCall store (Chain.ChainId chain) toolCallId with
      | Err e =>
          Returned (inl (sendErrorResponse StatusInternalServerError
                           "error getting chain execution" e))
      | Ok chainExecutionId =>
          match deref chainExecutionId with
          | Panicked r => Panicked r
          | Returned executionId =>
              match GetChainExecutionState store executionId with
              | Err e =>
                  Returned (inl (sendErrorResponse StatusInternalServerError
                                   "error getting chain execution state" e))
              | Ok ceState =>
                  match deref ceState with
                  | Panicked r => Panicked r
                  | Returned state => collectChainStates rest toolCallId store (acc ++ [state])
                  end
              end
          end
      end
  end.

Definition apiGetToolCallStateHandler (toolCallId : UUID) (store : Store) : outcome Response :=
  match GetToolCall store toolCallId with
  | Err e => Returned (sendErrorResponse StatusInternalServerError "error getting tool call" e)
  | Ok None => Returned (sendErrorResponse StatusNotFound "Run not found" "")
  | Ok (Some toolCall) =>
  match uuid_Parse libs (SentinelToolCall.ToolId toolCall) with
  | Err e => Returned (sendErrorResponse StatusInternalServerError "error parsing tool id" e)
  | Ok toolId =>
  match GetSupervisorChains store toolId with
  | Err e => Returned (sendErrorResponse StatusInternalServerError "error getting chains" e)
  | Ok chains =>
  match collectChainStates chains toolCallId store [] with
  | Panicked r => Panicked r
  | Returned (inl response) => Returned response
  | Returned (inr chainStates) =>
  match getToolCallStatus toolCallId store with
  | Err e =>
      Returned (sendErrorResponse StatusInternalServerError "error getting tool call status" e)
  | Ok status =>
      Returned (respondJSON
                  (JSONRunExecution {| RunExecution.Chains := chainStates;
                                       RunExecution.Toolcall := toolCall;
                                       RunExecution.Status_ := status |})
                  StatusOK)
  end end end end end.

End ToolCallState.

(** Modelled from the spec: the per-chain states of a tool call as the
    Store has them on record, one for each supervisor chain and in the
    chains' order; the helper that gathers them for [getToolCallStatus] is
    declared outside [handlers2.go]. *)
Fixpoint recordedChainStates (store : Store) (toolCallId : UUID) (chains : list Chain)
    : result (list ChainExecutionState) :=
  match chains with
  | [] => Ok []
  | chain :: rest =>
      match GetChainExecutionFromChainAndToolCall store (Chain.ChainId chain) toolCallId with
      | Err e => Err e
      | Ok None => Err "chain execution not found"
      | Ok (Some executionId) =>
          match GetChainExecutionState store executionId with
          | Err e => Err e
          | Ok None => Err "chain execution state not found"
          | Ok (Some state) =>
              match recordedChainStates store toolCallId rest with
              | Err e => Err e
              | Ok states => Ok (state :: states)
              end
          end
      end
  end.

(** Modelled from the spec: [getToolCallStatus] is declared outside
    [handlers2.go]. The design computes one aggregate status over the
    per-chain states by an aggregation rule whose precedence among the
    statuses belongs to a separate policy function; [aggregate] is that
    rule, taken as it comes. Called as the handler calls it, with the tool
    call identifier and the Store, it has no other way to the per-chain
    states than to read them from the Store. *)
Definition getToolCallStatus (libs : Libs)
    (aggregate : list ChainExecutionState -> Status)
    (toolCallId : UUID) (store : Store) : result Status :=
  match GetToolCall store toolCallId with
  | Err e => Err e
  | Ok None => Err "tool call not found"
  | Ok (Some toolCall) =>
      match uuid_Parse libs (SentinelToolCall.ToolId toolCall) with
      | Err e => Err e
      | Ok toolId =>
          match GetSupervisorChains store toolId with
          | Err e => Err e
          | Ok chains =>
              match recordedChainStates store toolCallId chains with
              | Err e => Err e
              | Ok chainStates => Ok (aggregate chainStates)
              end
          end
      end
  end.

(** ** The event hub

    [main] creates the hub with [NewHub()] and starts [hub.Run()]; both are
    declared outside the files at hand. *)

Module Hub.

Abbreviation SubscriberId := N.
Abbreviation Event := string.


(** Modelled from the spec: the hub owns a registry of the currently
    registered subscribers, each with a bounded outbound queue. [received]
    is what each subscriber's connection has taken off its queue, oldest
    first; [closed] holds the subscribers that were unregistered, whose
    removal is final. *)
Record t := mk {
  registry : gmap N (list string);
  received : N -> list string;
  closed : N -> bool
}.


Section Loop.
(** The bound of a subscriber's outbound queue. *)
Context (bound : nat).






End Loop.







End Hub.

(** ** Scenarios

    Concrete libraries and Stores on which the statements below are
    exercised. The library stand-ins decode every body to the same payload
    and every document to the given request and response. *)

Module Scenario.

Definition run1 : UUID := 1%N.

Definition libs_for (request : ChatCompletionRequest) (response : ChatCompletionResponse)
  : Libs :=
  {| json_Decode_SentinelChat := fun _ =>
       Ok {| SentinelChat.RequestData := "cmVxdWVzdA==";
             SentinelChat.ResponseData := "cmVzcG9uc2U=" |};
     base64_DecodeString := fun s => Ok s;
     json_Unmarshal_Request := fun _ => Ok request;
     json_Unmarshal_Response := fun _ => Ok response;
     json_Marshal_Request := fun _ => Ok "{request}";
     json_Marshal_Response := fun _ => Ok "{response}";
     uuid_String := fun u => pretty u;
     uuid_Parse := fun s =>
       if String.eqb s "" then Err "invalid UUID length: 0"
       else Ok (N.of_nat (String.length s)) |}.

Definition lookup_tool (tools : list (string * UUID)) (name : string) : option Tool :=
  match find (fun entry => String.eqb (fst entry) name) tools with
  | Some entry => Some {| Tool.Id := snd entry; Tool.Name := fst entry |}
  | None => None
  end.

(** A Store holding [logged] messages for every run and the given tools,
    with no tool call on record, answering every write with [created]. *)
Definition store_with (logged : result (list SentinelMessage)) (tools : list (string * UUID))
    (created : result (option UUID)) : Store :=
  {| tool_store := {| GetToolFromNameAndRunId := fun name _ => Ok (lookup_tool tools name) |};
     GetToolCall := fun _ => Ok None;
     GetMessagesForRun := fun _ => logged;
     CreateChatRequest := fun _ _ _ _ _ _ => created;
     GetSupervisorChains := fun _ => Ok [];
     GetChainExecutionFromChainAndToolCall := fun _ _ => Ok None;
     GetChainExecutionState := fun _ => Ok None |}.

Definition world0 : World := {| uuid_source := 0; store_writes := [] |}.

Definition stored (id : string) (content : string) : SentinelMessage :=
  {| SentinelMessage.Id := Some id;
     SentinelMessage.Role := "user";
     SentinelMessage.ToolCalls := Some [];
     SentinelMessage.Type_ := Some Text;
     SentinelMessage.Content := content |}.

Definition user_says (content : string) : ChatCompletionMessage :=
  {| ChatCompletionMessage.Role := "user";
     ChatCompletionMessage.Content := content;
     ChatCompletionMessage.MultiContent := None;
     ChatCompletionMessage.ToolCalls := [] |}.

Definition assistant_calls (names : list string) : ChatCompletionMessage :=
  {| ChatCompletionMessage.Role := "assistant";
     ChatCompletionMessage.Content := "";
     ChatCompletionMessage.MultiContent := None;
     ChatCompletionMessage.ToolCalls :=
       map (fun name => {| ToolCall.ID := "call_" +:+ name;
                           ToolCall.Function := {| FunctionCall.Name := name;
                                                   FunctionCall.Arguments := "{}" |} |})
           names |}.

Definition choice_of (message : ChatCompletionMessage) (finish : string)
  : ChatCompletionChoice :=
  {| ChatCompletionChoice.Index := 0;
     ChatCompletionChoice.Message := message;
     ChatCompletionChoice.FinishReason := finish |}.

Definition request_of (messages : list ChatCompletionMessage) : ChatCompletionRequest :=
  {| ChatCompletionRequest.Model := "gpt-4o"; ChatCompletionRequest.Messages := messages |}.

Definition response_of (choices : list ChatCompletionChoice) : ChatCompletionResponse :=
  {| ChatCompletionResponse.ID := "chatcmpl-1"; ChatCompletionResponse.Choices := choices |}.

Definition search_call : SentinelToolCall :=
  {| SentinelToolCall.Id := "call-1";
     SentinelToolCall.ToolId := "tool-7";
     SentinelToolCall.Name := Some "search";
     SentinelToolCall.Arguments := Some "{}" |}.

(** A Store with one tool call on record, the given chains for its tool and
    the given chain-execution lookups. *)
Definition store_with_chains (chains : list Chain)
    (execution : UUID -> result (option UUID))
    (state : UUID -> result (option ChainExecutionState)) : Store :=
  {| tool_store := {| GetToolFromNameAndRunId := fun _ _ => Ok None |};
     GetToolCall := fun _ => Ok (Some search_call);
     GetMessagesForRun := fun _ => Ok [];
     CreateChatRequest := fun _ _ _ _ _ _ => Ok None;
     GetSupervisorChains := fun _ => Ok chains;
     GetChainExecutionFromChainAndToolCall := fun chainId _ => execution chainId;
     GetChainExecutionState := state |}.

(** A status policy that reads the Store: the status on record under the
    tool call's own identifier, pending when there is none. *)
Definition status_on_record (toolCallId : UUID) (store : Store) : result Status :=
  match GetChainExecutionState store toolCallId with
  | Ok (Some state) => Ok (ChainExecutionState.Status_ state)
  | Ok None => Ok Pending
  | Err e => Err e
  end.



End Scenario.

(** ** Vocabulary of the statements *)

(** A computation that never issues a Store write. *)
Definition writes_nothing {A : Type} (m : Go A) : Prop :=
  forall w o w', m w = (o, w') -> store_writes w' = store_writes w.

(** The tool call names a tool the Store does not have for the run: the
    lookup answers with neither a tool nor an error. *)
Definition unresolved (store : ToolStore) (runId : UUID) (toolCall : ToolCall) : Prop :=
  GetToolFromNameAndRunId store (FunctionCall.Name (ToolCall.Function toolCall)) runId = Ok None.

Definition has_unresolved_tool_call (store : ToolStore) (runId : UUID)
    (choice : ChatCompletionChoice) : Prop :=
  Exists (unresolved store runId)
    (ChatCompletionMessage.ToolCalls (ChatCompletionChoice.Message choice)).

(** The handler, started in [w] on [body], got as far as issuing [call] to
    the Store: every earlier stage succeeded, and [call] carries what those
    stages produced. *)
Definition issued_write (libs : Libs) (body : string) (runId : UUID) (store : Store)
    (w : World) (call : CreateChatRequestCall) : Prop :=
  exists payload jsonRequest requestMessages w1 newRequestMessages jsonResponse response
         choices w2,
    json_Decode_SentinelChat libs body = Ok payload /\
    validateAndDecodeRequest libs (SentinelChat.RequestData payload) runId store w
      = (Returned (Ok (jsonRequest, requestMessages)), w1) /\
    filterRequestMessages requestMessages runId store = Returned (Ok newRequestMessages) /\
    validateAndDecodeResponse libs (SentinelChat.ResponseData payload)
      = Ok (jsonResponse, response) /\
    convertChoices libs (ChatCompletionResponse.Choices response) runId store w1
      = (Returned (Ok choices), w2) /\
    call = CreateChatRequestCall.mk runId jsonRequest jsonResponse choices "openai"
             newRequestMessages.

(** What the handler does once it has the Store's answer to [call]. *)
Definition after_write (store : Store) (call : CreateChatRequestCall) : outcome Response :=
  match CreateChatRequest store (CreateChatRequestCall.runId call)
          (CreateChatRequestCall.jsonRequest call) (CreateChatRequestCall.jsonResponse call)
          (CreateChatRequestCall.choices call) (CreateChatRequestCall.provider call)
          (CreateChatRequestCall.newRequestMessages call) with
  | Err e =>
      Returned (sendErrorResponse StatusBadRequest ("Error creating chat request: " +:+ e) "")
  | Ok None => Panicked nil_dereference
  | Ok (Some chatId) =>
      match extractChatIds chatId (CreateChatRequestCall.choices call) with
      | Panicked r => Panicked r
      | Returned chatIds => Returned (respondJSON (JSONChatIds chatIds) StatusOK)
      end
  end.

(** The tool call names a tool the Store has for the run. *)
Definition resolves (store : ToolStore) (runId : UUID) (toolCall : ToolCall) : Prop :=
  exists tool,
    GetToolFromNameAndRunId store (FunctionCall.Name (ToolCall.Function toolCall)) runId
      = Ok (Some tool).

(** Every [image_url] part of the message carries its image. *)
Definition image_parts_have_url (message : ChatCompletionMessage) : Prop :=
  forall parts,
    ChatCompletionMessage.MultiContent message = Some parts ->
    Forall (fun part => ChatMessagePart.Type_ part = "image_url" ->
                        is_Some (ChatMessagePart.ImageURL part)) parts.

(** A message whose conversion meets neither an unknown tool nor a missing
    image. *)
Definition convertible (store : ToolStore) (runId : UUID) (message : ChatCompletionMessage)
  : Prop :=
  Forall (resolves store runId) (ChatCompletionMessage.ToolCalls message) /\
  image_parts_have_url message.

Definition tool_calls_of (message : SentinelMessage) : list SentinelToolCall :=
  match SentinelMessage.ToolCalls message with
  | Some toolCalls => toolCalls
  | None => []
  end.

(** [converted] is a record made from [message]: it has an identifier, the
    role is copied, and its tool calls are those of [message], one for one
    and in order. *)
Definition converted_message (message : ChatCompletionMessage) (converted : SentinelMessage)
  : Prop :=
  is_Some (SentinelMessage.Id converted) /\
  SentinelMessage.Role converted = ChatCompletionMessage.Role message /\
  map SentinelToolCall.Name (tool_calls_of converted)
    = map (fun toolCall => Some (FunctionCall.Name (ToolCall.Function toolCall)))
        (ChatCompletionMessage.ToolCalls message).

Definition converted_choice (choice : ChatCompletionChoice) (converted : SentinelChoice)
  : Prop :=
  SentinelChoice.Index converted = ChatCompletionChoice.Index choice /\
  SentinelChoice.FinishReason converted = ChatCompletionChoice.FinishReason choice /\
  converted_message (ChatCompletionChoice.Message choice) (SentinelChoice.Message converted).

(** [pair] is the pair of identifiers of [toolCall]: its two pointers are set
    and point at the tool call's own identifier and at the identifier of its
    tool. *)
Definition identifies (toolCall : SentinelToolCall) (pair : ToolCallIds) : Prop :=
  ToolCallIds.ToolCallId pair = Some (SentinelToolCall.Id toolCall) /\
  ToolCallIds.ToolId pair = Some (SentinelToolCall.ToolId toolCall).

(** [entry] is the identifier projection of [choice]: the choice's
    identifier, its message's identifier, and one pair per tool call of the
    message, in order, each identifying its tool call. *)
Definition projected (choice : SentinelChoice) (entry : ChoiceIds) : Prop :=
  ChoiceIds.ChoiceId entry = SentinelChoice.SentinelId choice /\
  SentinelMessage.Id (SentinelChoice.Message choice) = Some (ChoiceIds.MessageId entry) /\
  Forall2 identifies (tool_calls_of (SentinelChoice.Message choice))
    (ChoiceIds.ToolCallIds entry).

(** Modelled from the spec: the internal finish-reason enumeration is
    declared outside [handlers2.go]; the data model names [stop],
    [tool_calls] and [length] among its values. *)
Definition known_finish_reasons : list string := ["stop"; "tool_calls"; "length"].

(** The reading of the design document for finish reasons outside the
    enumeration: one variant, "unrecognized", stands for all of them. *)
Definition unknown_finish_reasons_marked (libs : Libs) (known : list string) : Prop :=
  exists unrecognized : SentinelChoiceFinishReason,
    forall (store : Store) (runId : UUID) (choice : ChatCompletionChoice) (w w' : World)
           (converted : SentinelChoice),
      ~ In (ChatCompletionChoice.FinishReason choice) known ->
      convertChoices libs [choice] runId store w = (Returned (Ok [converted]), w') ->
      SentinelChoice.FinishReason converted = unrecognized.

(** The URLs of the [image_url] parts, in order, and the last of them. *)
Definition image_urls (parts : list ChatMessagePart) : list string :=
  flat_map
    (fun part =>
       if String.eqb (ChatMessagePart.Type_ part) "image_url"
       then match ChatMessagePart.ImageURL part with
            | Some image => [ChatMessageImageURL.URL image]
            | None => []
            end
       else [])
    parts.

Definition last_image_url (parts : list ChatMessagePart) : option string :=
  last (image_urls parts).


(** [converted] is the record [convertToolCall] makes of [toolCall]: the
    name and the arguments are those of the call, the tool identifier is the
    text of the identifier of the tool the Store has under that name. *)
Definition converted_tool_call (libs : Libs) (store : ToolStore) (runId : UUID)
    (toolCall : ToolCall) (converted : SentinelToolCall) : Prop :=
  SentinelToolCall.Name converted = Some (FunctionCall.Name (ToolCall.Function toolCall)) /\
  SentinelToolCall.Arguments converted
    = Some (FunctionCall.Arguments (ToolCall.Function toolCall)) /\
  exists tool,
    GetToolFromNameAndRunId store (FunctionCall.Name (ToolCall.Function toolCall)) runId
      = Ok (Some tool) /\
    SentinelToolCall.ToolId converted = uuid_String libs (Tool.Id tool).

(** The part is an [image_url] part that carries its image, or no image
    part at all. *)
Definition image_part_has_url (part : ChatMessagePart) : Prop :=
  ChatMessagePart.Type_ part = "image_url" -> is_Some (ChatMessagePart.ImageURL part).

(** The Store has an execution of [chain] against the tool call, and [state]
    is the state it has for that execution. *)
Definition chain_state (store : Store) (toolCallId : UUID) (chain : Chain)
    (state : ChainExecutionState) : Prop :=
  exists executionId,
    GetChainExecutionFromChainAndToolCall store (Chain.ChainId chain) toolCallId
      = Ok (Some executionId) /\
    GetChainExecutionState store executionId = Ok (Some state).

Definition has_message_id (choice : SentinelChoice) : Prop :=
  is_Some (SentinelMessage.Id (SentinelChoice.Message choice)).


(** * Properties *)

(** ** Reasoning about [Go] computations *)

Ltac go_unfold := unfold bind, ret, lift in *.

Ltac inverts H := inversion H; subst; clear H.

Lemma writes_nothing_ret {A : Type} (a : A) : writes_nothing (ret a).
Proof. intros w o w' H. inverts H. reflexivity. Qed.

Lemma writes_nothing_lift {A : Type} (o : outcome A) : writes_nothing (lift o).
Proof. intros w o' w' H. inverts H. reflexivity. Qed.

Lemma writes_nothing_uuid_New : writes_nothing uuid_New.
Proof. intros w o w' H. inverts H. reflexivity. Qed.

Lemma writes_nothing_bind {A B : Type} (m : Go A) (k : A -> Go B) :
  writes_nothing m -> (forall a, writes_nothing (k a)) -> writes_nothing (bind m k).
Proof.
  intros Hm Hk w o w' H. unfold bind in H.
  destruct (m w) as [[a|r] w1] eqn:E.
  - apply Hk in H. apply Hm in E. congruence.
  - inverts H. eapply Hm; eauto.
Qed.

Create HintDb go_writes.
#[local] Hint Resolve writes_nothing_ret writes_nothing_lift writes_nothing_uuid_New
  writes_nothing_bind : go_writes.

Section PipelineFacts.
Context (libs : Libs).

Lemma slice_from_app {A : Type} (old new : list A) :
  slice_from (old ++ new) (length old) = Returned new.
Proof.
  unfold slice_from. rewrite length_app.
  destruct (Nat.leb_spec (length old) (length old + length new)) as [_|Hlt]; [|lia].
  f_equal. rewrite skipn_app, skipn_all, Nat.sub_diag. reflexivity.
Qed.

Lemma slice_from_beyond {A : Type} (s : list A) (n : nat) :
  (length s < n)%nat -> slice_from s n = Panicked slice_out_of_range.
Proof.
  intros Hlt. unfold slice_from.
  destruct (Nat.leb_spec n (length s)) as [Hle|_]; [lia | reflexivity].
Qed.

Lemma writes_nothing_convertToolCall toolCall runId store :
  writes_nothing (convertToolCall libs toolCall runId store).
Proof.
  unfold convertToolCall.
  destruct (GetToolFromNameAndRunId _ _ _) as [[tool|]|e]; auto with go_writes.
Qed.

Lemma writes_nothing_convertToolCalls_from toolCalls runId store acc :
  writes_nothing (convertToolCalls_from libs toolCalls runId store acc).
Proof.
  revert acc. induction toolCalls as [|toolCall rest IH]; intros acc; simpl.
  - auto with go_writes.
  - apply writes_nothing_bind; [apply writes_nothing_convertToolCall|].
    intros [[converted|]|e]; auto with go_writes.
Qed.

Lemma writes_nothing_convertMessage message runId store :
  writes_nothing (convertMessage libs message runId store).
Proof.
  unfold convertMessage, convertToolCalls.
  apply writes_nothing_bind; [apply writes_nothing_convertToolCalls_from|].
  intros [toolCalls|e]; auto 6 with go_writes.
Qed.

Lemma writes_nothing_convertChoices_from choices runId store acc :
  writes_nothing (convertChoices_from libs choices runId store acc).
Proof.
  revert acc. induction choices as [|choice rest IH]; intros acc; simpl.
  - auto with go_writes.
  - apply writes_nothing_bind; [apply writes_nothing_convertMessage|].
    intros [message|e]; auto with go_writes.
Qed.

Lemma writes_nothing_convertMessages_from messages runId store acc :
  writes_nothing (convertMessages_from libs messages runId store acc).
Proof.
  revert acc. induction messages as [|message rest IH]; intros acc; simpl.
  - auto with go_writes.
  - apply writes_nothing_bind; [apply writes_nothing_convertMessage|].
    intros [converted|e]; auto with go_writes.
Qed.

Lemma writes_nothing_validateAndDecodeRequest encodedData runId store :
  writes_nothing (validateAndDecodeRequest libs encodedData runId store).
Proof.
  unfold validateAndDecodeRequest.
  destruct (base64_DecodeString _ _) as [decoded|e]; auto with go_writes.
  destruct (json_Unmarshal_Request _ _) as [v|e]; auto with go_writes.
  apply writes_nothing_bind; [apply writes_nothing_convertMessages_from|].
  intros [converted|e]; auto with go_writes.
  destruct (json_Marshal_Request _ _); auto with go_writes.
Qed.

End PipelineFacts.

Section IngestionFacts.
Context (libs : Libs).

(** Every run of the ingestion handler either stops before the Store write,
    in which case nothing is written and any response sent is a 400, or
    issues exactly one write and finishes as [after_write] says. *)
Lemma apiCreateNewChatHandler_cases rawBody runId store w o w' :
  apiCreateNewChatHandler libs rawBody runId store w = (o, w') ->
  (store_writes w' = store_writes w /\
   forall r, o = Returned r -> status r = StatusBadRequest)
  \/ (exists call,
        issued_write libs rawBody runId store w call /\
        store_writes w' = store_writes w ++ [call] /\
        o = after_write store call).
Proof.
  unfold apiCreateNewChatHandler. intros H.
  destruct (json_Decode_SentinelChat libs rawBody) as [payload|e] eqn:Hdecode.
  2:{ inverts H. left. split; [reflexivity|]. intros r Hr. inverts Hr. reflexivity. }
  unfold bind at 1 in H.
  destruct (validateAndDecodeRequest libs _ runId store w) as [[[[jsonRequest requestMessages]|e]|r] w1]
    eqn:Hrequest;
    pose proof (writes_nothing_validateAndDecodeRequest libs _ _ _ _ _ _ Hrequest) as Hw1.
  2,3: inverts H; left; split; [assumption|]; intros r' Hr; inverts Hr; reflexivity.
  unfold bind at 1, lift at 1 in H.
  destruct (filterRequestMessages requestMessages runId store) as [[newRequestMessages|e]|r]
    eqn:Hfilter.
  2,3: inverts H; left; split; [assumption|]; intros r' Hr; inverts Hr; reflexivity.
  destruct (validateAndDecodeResponse libs _) as [[jsonResponse response]|e] eqn:Hresponse.
  2: inverts H; left; split; [assumption|]; intros r' Hr; inverts Hr; reflexivity.
  unfold bind at 1 in H.
  destruct (convertChoices libs _ runId store w1) as [[[choices|e]|r] w2] eqn:Hchoices;
    pose proof (writes_nothing_convertChoices_from libs _ _ _ _ _ _ _ Hchoices) as Hw2.
  2,3: inverts H; left; split; [congruence|]; intros r' Hr; inverts Hr; reflexivity.
  right.
  exists (CreateChatRequestCall.mk runId jsonRequest jsonResponse choices "openai"
            newRequestMessages).
  split.
  { exists payload, jsonRequest, requestMessages, w1, newRequestMessages, jsonResponse,
      response, choices, w2. repeat split; assumption. }
  unfold after_write. simpl.
  unfold bind, store_CreateChatRequest, lift, ret in H.
  destruct (CreateChatRequest store runId jsonRequest jsonResponse choices "openai"
              newRequestMessages) as [[chatId|]|e]; simpl in H.
  - destruct (extractChatIds chatId choices) as [chatIds|r]; inverts H; simpl;
      (split; [congruence | reflexivity]).
  - inverts H; simpl. split; [congruence | reflexivity].
  - inverts H; simpl. split; [congruence | reflexivity].
Qed.

Lemma filterRequestMessages_app store runId logged replayed fresh :
  GetMessagesForRun store runId = Ok logged ->
  length replayed = length logged ->
  filterRequestMessages (replayed ++ fresh) runId store = Returned (Ok fresh).
Proof.
  intros Hlogged Hlen. unfold filterRequestMessages.
  rewrite Hlogged, <- Hlen, slice_from_app. reflexivity.
Qed.

Lemma filterRequestMessages_beyond store runId logged requestMessages :
  GetMessagesForRun store runId = Ok logged ->
  (length requestMessages < length logged)%nat ->
  filterRequestMessages requestMessages runId store = Panicked slice_out_of_range.
Proof.
  intros Hlogged Hlt.
  unfold filterRequestMessages. rewrite Hlogged, slice_from_beyond by exact Hlt.
  reflexivity.
Qed.

End IngestionFacts.

(** C1. For a run with [k] messages logged and a request whose converted
    messages are [k] replayed messages followed by the new ones,
    [filterRequestMessages] returns exactly the new ones, whatever [k] is.
    An ingestion of such a request whose response decodes and whose choices
    convert issues one write to the Store, and that write carries exactly
    the new messages; in no run of the handler on such a request is
    anything else written. *)
Theorem filterRequestMessages_returns_new_suffix :
  forall (libs : Libs) (store : Store) (runId : UUID)
         (logged replayed fresh : list SentinelMessage),
    GetMessagesForRun store runId = Ok logged ->
    length replayed = length logged ->
    filterRequestMessages (replayed ++ fresh) runId store = Returned (Ok fresh) /\
    (forall rawBody payload jsonRequest jsonResponse response choices w w1 w2,
        json_Decode_SentinelChat libs rawBody = Ok payload ->
        validateAndDecodeRequest libs (SentinelChat.RequestData payload) runId store w
          = (Returned (Ok (jsonRequest, replayed ++ fresh)), w1) ->
        validateAndDecodeResponse libs (SentinelChat.ResponseData payload)
          = Ok (jsonResponse, response) ->
        convertChoices libs (ChatCompletionResponse.Choices response) runId store w1
          = (Returned (Ok choices), w2) ->
        store_writes (snd (apiCreateNewChatHandler libs rawBody runId store w))
          = store_writes w ++
            [CreateChatRequestCall.mk runId jsonRequest jsonResponse choices "openai" fresh]) /\
    (forall rawBody payload jsonRequest w w1 o w',
        json_Decode_SentinelChat libs rawBody = Ok payload ->
        validateAndDecodeRequest libs (SentinelChat.RequestData payload) runId store w
          = (Returned (Ok (jsonRequest, replayed ++ fresh)), w1) ->
        apiCreateNewChatHandler libs rawBody runId store w = (o, w') ->
        (store_writes w' = store_writes w /\
         forall r, o = Returned r -> status r = StatusBadRequest)
        \/ (exists call,
              store_writes w' = store_writes w ++ [call] /\
              CreateChatRequestCall.newRequestMessages call = fresh)).
Proof.
  intros libs store runId logged replayed fresh Hlogged Hlen.
  pose proof (filterRequestMessages_app store runId logged replayed fresh Hlogged Hlen)
    as Hfilter.
  split; [exact Hfilter|]. split.
  - intros rawBody payload jsonRequest jsonResponse response choices w w1 w2
      Hdecode Hrequest Hresponse Hchoices.
    pose proof (writes_nothing_validateAndDecodeRequest libs _ _ _ _ _ _ Hrequest) as Hw1.
    pose proof (writes_nothing_convertChoices_from libs _ _ _ _ _ _ _ Hchoices) as Hw2.
    unfold apiCreateNewChatHandler. rewrite Hdecode.
    unfold bind at 1. rewrite Hrequest.
    unfold bind at 1, lift at 1. rewrite Hfilter, Hresponse.
    unfold bind at 1. rewrite Hchoices.
    unfold bind at 1, store_CreateChatRequest.
    destruct (CreateChatRequest store runId jsonRequest jsonResponse choices "openai" fresh)
      as [[chatId|]|e]; unfold bind, lift, ret, deref;
      try destruct (extractChatIds chatId choices); simpl; congruence.
  - intros rawBody payload jsonRequest w w1 o w' Hdecode Hrequest Hrun.
    destruct (apiCreateNewChatHandler_cases libs _ _ _ _ _ _ Hrun)
      as [Hstop | (call & Hissued & Hwrites & _)]; [left; exact Hstop|].
    right. exists call. split; [exact Hwrites|].
    destruct Hissued as (payload' & jsonRequest' & requestMessages & w1' & newRequestMessages
                         & jsonResponse & response & choices & w2
                         & Hdecode' & Hrequest' & Hfilter' & _ & _ & ->).
    rewrite Hdecode in Hdecode'. inverts Hdecode'.
    rewrite Hrequest in Hrequest'. inverts Hrequest'.
    rewrite Hfilter in Hfilter'. inverts Hfilter'. reflexivity.
Qed.

Lemma filterRequestMessages_returns_new_suffix_witness :
  let libs :=
    Scenario.libs_for
      (Scenario.request_of
         [Scenario.user_says "a"; Scenario.user_says "b"; Scenario.user_says "c"])
      (Scenario.response_of [Scenario.choice_of (Scenario.user_says "ok") "stop"]) in
  let logged := [Scenario.stored "m1" "a"; Scenario.stored "m2" "b"] in
  let store := Scenario.store_with (Ok logged) [] (Ok (Some 100%N)) in
  let replayed := [Scenario.stored "0" "a"; Scenario.stored "1" "b"] in
  let fresh := [Scenario.stored "2" "c"] in
  GetMessagesForRun store Scenario.run1 = Ok logged /\
  length replayed = length logged /\
  filterRequestMessages (replayed ++ fresh) Scenario.run1 store = Returned (Ok fresh) /\
  map CreateChatRequestCall.newRequestMessages
    (store_writes (snd (apiCreateNewChatHandler libs "{}" Scenario.run1 store Scenario.world0)))
    = [fresh].
Proof.
  intros libs logged store replayed fresh.
  split; [reflexivity|]. split; [reflexivity|].
  destruct (filterRequestMessages_returns_new_suffix libs store Scenario.run1 logged replayed
              fresh eq_refl eq_refl) as (Hfilter & Hwrite & _).
  split; [exact Hfilter|].
  assert (exists choices w2,
             convertChoices libs
               [Scenario.choice_of (Scenario.user_says "ok") "stop"] Scenario.run1 store
               {| uuid_source := 3; store_writes := [] |}
               = (Returned (Ok choices), w2)) as (choices & w2 & Hchoices).
  { eexists _, _. vm_compute. reflexivity. }
  rewrite (Hwrite "{}"
             {| SentinelChat.RequestData := "cmVxdWVzdA==";
                SentinelChat.ResponseData := "cmVzcG9uc2U=" |}
             "{request}" "{response}"
             (Scenario.response_of [Scenario.choice_of (Scenario.user_says "ok") "stop"])
             choices Scenario.world0 {| uuid_source := 3; store_writes := [] |} w2
             eq_refl eq_refl eq_refl Hchoices).
  reflexivity.
Defined.

(** C2. The filtering step is claimed to end in an error or an empty result
    when more messages are logged for the run than the request carries. The
    code slices without comparing the two lengths: in that case
    [requestMessages[numMessagesLogged:]] is out of range and the step
    panics. *)
Theorem filterRequestMessages_panics_when_history_longer :
  forall (store : Store) (runId : UUID) (logged requestMessages : list SentinelMessage),
    GetMessagesForRun store runId = Ok logged ->
    (length requestMessages < length logged)%nat ->
    filterRequestMessages requestMessages runId store = Panicked slice_out_of_range.
Proof.
  intros store runId logged requestMessages. apply filterRequestMessages_beyond.
Qed.

Lemma filterRequestMessages_panics_when_history_longer_witness :
  let store :=
    Scenario.store_with
      (Ok [Scenario.stored "m1" "a"; Scenario.stored "m2" "b"; Scenario.stored "m3" "c"]) []
      (Ok (Some 100%N)) in
  filterRequestMessages [Scenario.stored "0" "a"; Scenario.stored "1" "b"] Scenario.run1 store
    = Panicked slice_out_of_range.
Proof.
  intros store.
  apply (filterRequestMessages_panics_when_history_longer store Scenario.run1
           [Scenario.stored "m1" "a"; Scenario.stored "m2" "b"; Scenario.stored "m3" "c"]).
  - reflexivity.
  - simpl. lia.
Defined.

Section UnresolvedTools.
Context (libs : Libs).

Lemma convertToolCalls_from_unresolved store runId toolCalls :
  Exists (unresolved store runId) toolCalls ->
  forall acc w, exists e w',
    convertToolCalls_from libs toolCalls runId store acc w = (Returned (Err e), w').
Proof.
  induction toolCalls as [|toolCall rest IH]; intros Hex acc w.
  - inversion Hex.
  - simpl. unfold bind, convertToolCall.
    destruct (GetToolFromNameAndRunId store _ runId) as [[tool|]|e] eqn:Hlookup;
      simpl; go_unfold; eauto.
    unfold uuid_New. simpl.
    apply Exists_cons in Hex. destruct Hex as [Hhead | Htail].
    + unfold unresolved in Hhead. congruence.
    + apply IH. exact Htail.
Qed.

Lemma convertMessage_unresolved store runId message :
  Exists (unresolved store runId) (ChatCompletionMessage.ToolCalls message) ->
  forall w, exists e w', convertMessage libs message runId store w = (Returned (Err e), w').
Proof.
  intros Hex w. unfold convertMessage, convertToolCalls, bind at 1.
  destruct (convertToolCalls_from_unresolved store runId _ Hex [] w) as (e & w' & ->).
  unfold ret. eauto.
Qed.

Lemma convertChoices_from_unresolved store runId choices :
  Exists (has_unresolved_tool_call store runId) choices ->
  forall acc w o w',
    convertChoices_from libs choices runId store acc w = (o, w') ->
    forall converted, o <> Returned (Ok converted).
Proof.
  induction choices as [|choice rest IH]; intros Hex acc w o w' Hrun converted.
  - inversion Hex.
  - simpl in Hrun. unfold bind at 1 in Hrun.
    destruct (convertMessage libs _ runId store w) as [[[message|e]|r] w1] eqn:Hmessage.
    + apply Exists_cons in Hex. destruct Hex as [Hhead | Htail].
      * destruct (convertMessage_unresolved store runId _ Hhead w) as (e & w2 & Heq).
        congruence.
      * unfold bind at 1, uuid_New at 1 in Hrun. eapply IH; eauto.
    + inverts Hrun. discriminate.
    + inverts Hrun. discriminate.
Qed.

(** An ingestion whose response names a tool the run does not have never
    reaches the Store write, and any response it sends is a 400. *)
Lemma unknown_tool_never_persisted (store : Store) runId rawBody payload jsonResponse
    response w o w' :
  json_Decode_SentinelChat libs rawBody = Ok payload ->
  validateAndDecodeResponse libs (SentinelChat.ResponseData payload)
    = Ok (jsonResponse, response) ->
  Exists (has_unresolved_tool_call store runId) (ChatCompletionResponse.Choices response) ->
  apiCreateNewChatHandler libs rawBody runId store w = (o, w') ->
  store_writes w' = store_writes w /\
  forall r, o = Returned r -> status r = StatusBadRequest.
Proof.
  intros Hdecode Hresponse Hex Hrun.
  destruct (apiCreateNewChatHandler_cases libs _ _ _ _ _ _ Hrun)
    as [Hstop | (call & Hissued & _)]; [exact Hstop|].
  destruct Hissued as (payload' & jsonRequest & requestMessages & w1 & newRequestMessages
                       & jsonResponse' & response' & choices & w2
                       & Hdecode' & _ & _ & Hresponse' & Hchoices & _).
  rewrite Hdecode in Hdecode'. inverts Hdecode'.
  rewrite Hresponse in Hresponse'. inverts Hresponse'.
  exfalso. eapply convertChoices_from_unresolved; eauto.
Qed.

End UnresolvedTools.

(** C3. An ingestion whose response names an unregistered tool is claimed to
    fail with a 400 in every case. When the run has more messages logged
    than the request carries, the handler panics in the filtering step,
    before the response is decoded: no 400 is sent (nothing is written
    either). *)
Theorem unknown_tool_ingestion_panics_when_history_longer :
  forall (libs : Libs) (store : Store) (runId : UUID) (rawBody : string)
         (payload : SentinelChat) (jsonRequest : bytes)
         (requestMessages logged : list SentinelMessage)
         (jsonResponse : bytes) (response : ChatCompletionResponse) (w w1 : World),
    json_Decode_SentinelChat libs rawBody = Ok payload ->
    validateAndDecodeRequest libs (SentinelChat.RequestData payload) runId store w
      = (Returned (Ok (jsonRequest, requestMessages)), w1) ->
    GetMessagesForRun store runId = Ok logged ->
    (length requestMessages < length logged)%nat ->
    validateAndDecodeResponse libs (SentinelChat.ResponseData payload)
      = Ok (jsonResponse, response) ->
    Exists (has_unresolved_tool_call store runId) (ChatCompletionResponse.Choices response) ->
    apiCreateNewChatHandler libs rawBody runId store w = (Panicked slice_out_of_range, w1).
Proof.
  intros libs store runId rawBody payload jsonRequest requestMessages logged jsonResponse
    response w w1 Hdecode Hrequest Hlogged Hlt _ _.
  unfold apiCreateNewChatHandler. rewrite Hdecode.
  unfold bind at 1. rewrite Hrequest.
  unfold bind at 1, lift at 1.
  rewrite (filterRequestMessages_beyond store runId logged
             requestMessages Hlogged Hlt).
  reflexivity.
Qed.

Lemma unknown_tool_ingestion_panics_when_history_longer_witness :
  let libs :=
    Scenario.libs_for
      (Scenario.request_of [Scenario.user_says "a"])
      (Scenario.response_of
         [Scenario.choice_of (Scenario.assistant_calls ["ghost"]) "tool_calls"]) in
  let store :=
    Scenario.store_with (Ok [Scenario.stored "m1" "a"; Scenario.stored "m2" "b"]) []
      (Ok (Some 100%N)) in
  apiCreateNewChatHandler libs "{}" Scenario.run1 store Scenario.world0
    = (Panicked slice_out_of_range, {| uuid_source := 1; store_writes := [] |}).
Proof.
  intros libs store.
  eapply (unknown_tool_ingestion_panics_when_history_longer libs store Scenario.run1 "{}").
  - reflexivity.
  - vm_compute. reflexivity.
  - reflexivity.
  - simpl. lia.
  - reflexivity.
  - apply Exists_cons_hd. apply Exists_cons_hd. reflexivity.
Defined.

(** C5. A Store failure during ingestion is claimed to be answered with a
    500. The handler answers 400 both when reading the run's messages fails
    and when creating the chat record fails. *)
Theorem store_failures_answered_with_400 :
  forall (libs : Libs) (store : Store) (runId : UUID) (rawBody : string)
         (payload : SentinelChat) (jsonRequest : bytes)
         (requestMessages : list SentinelMessage) (w w1 : World),
    json_Decode_SentinelChat libs rawBody = Ok payload ->
    validateAndDecodeRequest libs (SentinelChat.RequestData payload) runId store w
      = (Returned (Ok (jsonRequest, requestMessages)), w1) ->
    (forall e,
        GetMessagesForRun store runId = Err e ->
        apiCreateNewChatHandler libs rawBody runId store w
          = (Returned (sendErrorResponse StatusBadRequest
                         ("Error filtering request messages: "
                            +:+ ("error getting messages for run: " +:+ e)) ""), w1)) /\
    (forall newRequestMessages jsonResponse response choices w2 e,
        filterRequestMessages requestMessages runId store = Returned (Ok newRequestMessages) ->
        validateAndDecodeResponse libs (SentinelChat.ResponseData payload)
          = Ok (jsonResponse, response) ->
        convertChoices libs (ChatCompletionResponse.Choices response) runId store w1
          = (Returned (Ok choices), w2) ->
        CreateChatRequest store runId jsonRequest jsonResponse choices "openai"
          newRequestMessages = Err e ->
        fst (apiCreateNewChatHandler libs rawBody runId store w)
          = Returned (sendErrorResponse StatusBadRequest
                        ("Error creating chat request: " +:+ e) "")).
Proof.
  intros libs store runId rawBody payload jsonRequest requestMessages w w1 Hdecode Hrequest.
  split.
  - intros e Hread. unfold apiCreateNewChatHandler. rewrite Hdecode.
    unfold bind at 1. rewrite Hrequest.
    unfold bind at 1, lift at 1, filterRequestMessages. rewrite Hread. reflexivity.
  - intros newRequestMessages jsonResponse response choices w2 e Hfilter Hresponse Hchoices
      Hcreate.
    unfold apiCreateNewChatHandler. rewrite Hdecode.
    unfold bind at 1. rewrite Hrequest.
    unfold bind at 1, lift at 1. rewrite Hfilter, Hresponse.
    unfold bind at 1. rewrite Hchoices.
    unfold bind at 1, store_CreateChatRequest. rewrite Hcreate. reflexivity.
Qed.

Lemma store_failures_answered_with_400_witness :
  let libs :=
    Scenario.libs_for (Scenario.request_of [Scenario.user_says "a"])
      (Scenario.response_of [Scenario.choice_of (Scenario.user_says "ok") "stop"]) in
  let store := Scenario.store_with (Err "connection refused") [] (Ok (Some 100%N)) in
  apiCreateNewChatHandler libs "{}" Scenario.run1 store Scenario.world0
    = (Returned {| status := 400;
                   body := ErrorBody
                     "Error filtering request messages: error getting messages for run: connection refused"
                     "" |},
       {| uuid_source := 1; store_writes := [] |}).
Proof.
  intros libs store.
  refine (proj1 (store_failures_answered_with_400 libs store Scenario.run1 "{}"
                   _ _ _ Scenario.world0 _ eq_refl _) "connection refused" eq_refl).
  vm_compute. reflexivity.
Defined.

(** The read handler for the same Store operation answers 500. *)
Lemma apiGetRunMessagesHandler_store_failure store runId e :
  GetMessagesForRun store runId = Err e ->
  apiGetRunMessagesHandler runId store
    = sendErrorResponse StatusInternalServerError "error getting messages for run" e.
Proof. intros H. unfold apiGetRunMessagesHandler. rewrite H. reflexivity. Qed.

Section ConversionFacts.
Context (libs : Libs).

Lemma convertToolCalls_from_ok store runId toolCalls :
  forall acc w converted w',
    convertToolCalls_from libs toolCalls runId store acc w = (Returned (Ok converted), w') ->
    exists new,
      converted = acc ++ new /\
      map SentinelToolCall.Name new
        = map (fun toolCall => Some (FunctionCall.Name (ToolCall.Function toolCall))) toolCalls.
Proof.
  induction toolCalls as [|toolCall rest IH]; intros acc w converted w' Hrun.
  - inverts Hrun. exists []. rewrite app_nil_r. split; reflexivity.
  - simpl in Hrun. unfold bind at 1, convertToolCall in Hrun.
    destruct (GetToolFromNameAndRunId store _ runId) as [[tool|]|e]; simpl in Hrun;
      go_unfold; simpl in Hrun; try discriminate.
    apply IH in Hrun. destruct Hrun as (new & -> & Hnames).
    eexists (_ :: new). rewrite <- app_assoc. split; [reflexivity|].
    simpl. rewrite Hnames. reflexivity.
Qed.

Lemma convertMessage_ok store runId message w converted w' :
  convertMessage libs message runId store w = (Returned (Ok converted), w') ->
  converted_message message converted.
Proof.
  unfold convertMessage, convertToolCalls. intros Hrun. unfold bind at 1 in Hrun.
  destruct (convertToolCalls_from libs _ runId store [] w) as [[[toolCalls|e]|r] w1] eqn:Htools;
    try (inverts Hrun; fail).
  apply convertToolCalls_from_ok in Htools. destruct Htools as (new & Heq & Hnames).
  simpl in Heq. subst toolCalls.
  go_unfold. destruct (classifyContent message) as [classified|r]; inverts Hrun.
  repeat split; simpl; eauto.
Qed.

Lemma convertChoices_from_ok store runId choices :
  forall acc w converted w',
    convertChoices_from libs choices runId store acc w = (Returned (Ok converted), w') ->
    exists new, converted = acc ++ new /\ Forall2 converted_choice choices new.
Proof.
  induction choices as [|choice rest IH]; intros acc w converted w' Hrun.
  - inverts Hrun. exists []. rewrite app_nil_r. split; [reflexivity | constructor].
  - simpl in Hrun. unfold bind at 1 in Hrun.
    destruct (convertMessage libs _ runId store w) as [[[message|e]|r] w1] eqn:Hmessage;
      try (inverts Hrun; fail).
    apply convertMessage_ok in Hmessage.
    unfold bind at 1, uuid_New at 1 in Hrun.
    apply IH in Hrun. destruct Hrun as (new & -> & Hnew).
    eexists (_ :: new). rewrite <- app_assoc. split; [reflexivity|].
    constructor; [|exact Hnew]. repeat split; simpl; apply Hmessage.
Qed.

Lemma convertToolCalls_from_resolves store runId toolCalls :
  Forall (resolves store runId) toolCalls ->
  forall acc w, exists converted w',
    convertToolCalls_from libs toolCalls runId store acc w = (Returned (Ok converted), w').
Proof.
  induction 1 as [|toolCall rest [tool Htool] _ IH]; intros acc w; simpl.
  - unfold ret. eauto.
  - unfold bind at 1, convertToolCall. rewrite Htool. go_unfold. simpl. apply IH.
Qed.

Lemma scanMultiContent_returns parts :
  Forall (fun part => ChatMessagePart.Type_ part = "image_url" ->
                      is_Some (ChatMessagePart.ImageURL part)) parts ->
  forall msgType msgContent, exists classified,
    scanMultiContent parts msgType msgContent = Returned classified.
Proof.
  induction 1 as [|part rest Hpart _ IH]; intros msgType msgContent; simpl; [eauto|].
  destruct (String.eqb_spec (ChatMessagePart.Type_ part) "image_url") as [Himage|_].
  - destruct (Hpart Himage) as [image ->]. simpl. apply IH.
  - apply IH.
Qed.

Lemma convertMessage_convertible store runId message :
  convertible store runId message ->
  forall w, exists converted w',
    convertMessage libs message runId store w = (Returned (Ok converted), w').
Proof.
  intros [Htools Himages] w. unfold convertMessage, convertToolCalls, bind at 1.
  destruct (convertToolCalls_from_resolves store runId _ Htools [] w) as (toolCalls & w1 & ->).
  assert (exists classified, classifyContent message = Returned classified)
    as [classified Hclassified].
  { unfold classifyContent.
    destruct (ChatCompletionMessage.MultiContent message) as [parts|] eqn:Hparts; [|eauto].
    apply scanMultiContent_returns. apply Himages. exact Hparts. }
  go_unfold. rewrite Hclassified. simpl. eauto.
Qed.

Lemma convertChoices_from_convertible store runId choices :
  Forall (fun choice => convertible store runId (ChatCompletionChoice.Message choice)) choices ->
  forall acc w, exists converted w',
    convertChoices_from libs choices runId store acc w = (Returned (Ok converted), w').
Proof.
  induction 1 as [|choice rest Hchoice _ IH]; intros acc w; simpl.
  - unfold ret. eauto.
  - unfold bind at 1.
    destruct (convertMessage_convertible store runId _ Hchoice w) as (message & w1 & ->).
    unfold bind at 1, uuid_New at 1. apply IH.
Qed.

Lemma converted_choices_finish_reasons choices converted :
  Forall2 converted_choice choices converted ->
  map SentinelChoice.FinishReason converted
    = map ChatCompletionChoice.FinishReason choices.
Proof.
  induction 1 as [|choice c choices converted (_ & Hfinish & _) _ IH]; simpl;
    [reflexivity|]. rewrite Hfinish, IH. reflexivity.
Qed.

End ConversionFacts.

Section PanicFreedom.
Context (libs : Libs).

Lemma convertToolCalls_from_returns store runId toolCalls :
  forall acc w, exists res w',
    convertToolCalls_from libs toolCalls runId store acc w = (Returned res, w').
Proof.
  induction toolCalls as [|toolCall rest IH]; intros acc w; simpl.
  - unfold ret. eauto.
  - unfold bind at 1, convertToolCall.
    destruct (GetToolFromNameAndRunId store _ runId) as [[tool|]|e]; go_unfold; simpl; eauto.
Qed.

Lemma classifyContent_returns message :
  image_parts_have_url message -> exists classified, classifyContent message = Returned classified.
Proof.
  intros Himages. unfold classifyContent.
  destruct (ChatCompletionMessage.MultiContent message) as [parts|] eqn:Hparts; [|eauto].
  apply scanMultiContent_returns. apply Himages. exact Hparts.
Qed.

Lemma convertMessage_returns store runId message :
  image_parts_have_url message ->
  forall w, exists res w', convertMessage libs message runId store w = (Returned res, w').
Proof.
  intros Himages w. unfold convertMessage, convertToolCalls, bind at 1.
  destruct (convertToolCalls_from_returns store runId
              (ChatCompletionMessage.ToolCalls message) [] w) as ([toolCalls|e] & w1 & ->).
  - destruct (classifyContent_returns message Himages) as [classified Hclassified].
    go_unfold. rewrite Hclassified. simpl. eauto.
  - unfold ret. eauto.
Qed.

Lemma convertMessages_from_returns store runId messages :
  Forall image_parts_have_url messages ->
  forall acc w, exists res w',
    convertMessages_from libs messages runId store acc w = (Returned res, w') /\
    forall converted,
      res = Ok converted -> length converted = (length acc + length messages)%nat.
Proof.
  induction 1 as [|message rest Hmessage _ IH]; intros acc w; simpl.
  - unfold ret. eexists _, _. split; [reflexivity|].
    intros converted Heq. inverts Heq. lia.
  - unfold bind at 1.
    destruct (convertMessage_returns store runId message Hmessage w)
      as ([converted|e] & w1 & ->).
    + destruct (IH (acc ++ [converted]) w1) as (res & w' & -> & Hlen).
      eexists _, _. split; [reflexivity|].
      intros all Heq. rewrite (Hlen all Heq), length_app. simpl. lia.
    + unfold ret. eexists _, _. split; [reflexivity|]. intros converted Heq. discriminate Heq.
Qed.

Lemma convertChoices_from_returns store runId choices :
  Forall (fun choice => image_parts_have_url (ChatCompletionChoice.Message choice)) choices ->
  forall acc w, exists res w',
    convertChoices_from libs choices runId store acc w = (Returned res, w').
Proof.
  induction 1 as [|choice rest Hchoice _ IH]; intros acc w; simpl.
  - unfold ret. eauto.
  - unfold bind at 1.
    destruct (convertMessage_returns store runId _ Hchoice w) as ([message|e] & w1 & ->).
    + unfold bind at 1, uuid_New at 1. apply IH.
    + unfold ret. eauto.
Qed.

(** Where every image part carries its image and the run has no more
    messages logged than the request carries, an ingestion whose response
    names a tool the run does not have is answered, with a 400, and nothing
    is written. *)
Lemma unknown_tool_rejected_with_400 (store : Store) runId rawBody payload jsonResponse
    response w :
  json_Decode_SentinelChat libs rawBody = Ok payload ->
  (forall decoded v,
      base64_DecodeString libs (SentinelChat.RequestData payload) = Ok decoded ->
      json_Unmarshal_Request libs decoded = Ok v ->
      Forall image_parts_have_url (ChatCompletionRequest.Messages v) /\
      forall logged,
        GetMessagesForRun store runId = Ok logged ->
        (length logged <= length (ChatCompletionRequest.Messages v))%nat) ->
  validateAndDecodeResponse libs (SentinelChat.ResponseData payload)
    = Ok (jsonResponse, response) ->
  Forall (fun choice => image_parts_have_url (ChatCompletionChoice.Message choice))
    (ChatCompletionResponse.Choices response) ->
  Exists (has_unresolved_tool_call store runId) (ChatCompletionResponse.Choices response) ->
  exists r w',
    apiCreateNewChatHandler libs rawBody runId store w = (Returned r, w') /\
    status r = StatusBadRequest /\
    store_writes w' = store_writes w.
Proof.
  intros Hdecode Hrequest Hresponse Himages Hunresolved.
  assert (exists r w', apiCreateNewChatHandler libs rawBody runId store w = (Returned r, w'))
    as (r & w' & Hrun).
  { unfold apiCreateNewChatHandler. rewrite Hdecode.
    unfold bind at 1, validateAndDecodeRequest.
    destruct (base64_DecodeString libs _) as [decoded|e] eqn:Hbase64;
      [|unfold ret; eauto].
    destruct (json_Unmarshal_Request libs decoded) as [v|e] eqn:Hjson;
      [|unfold ret; eauto].
    destruct (Hrequest decoded v eq_refl Hjson) as [Hparts Hlogged].
    unfold bind at 1.
    destruct (convertMessages_from_returns store runId _ Hparts [] w)
      as ([converted|e] & w1 & -> & Hlen); [|unfold ret; eauto].
    specialize (Hlen converted eq_refl). simpl in Hlen.
    destruct (json_Marshal_Request libs v) as [marshaled|e]; [|unfold ret; eauto].
    unfold ret at 1, bind at 1, lift at 1, filterRequestMessages.
    destruct (GetMessagesForRun store runId) as [logged|e] eqn:Hread;
      [|unfold ret; eauto].
    unfold slice_from.
    destruct (Nat.leb_spec (length logged) (length converted)) as [_|Hlt];
      [|specialize (Hlogged logged eq_refl); lia].
    rewrite Hresponse. unfold bind at 1.
    destruct (convertChoices_from_returns store runId _ Himages [] w1)
      as ([choices|e] & w2 & Hchoices).
    - exfalso. eapply (convertChoices_from_unresolved libs); eauto.
    - unfold convertChoices. rewrite Hchoices. unfold ret. eauto. }
  exists r, w'. split; [exact Hrun|].
  destruct (unknown_tool_never_persisted libs store runId rawBody payload jsonResponse
              response w _ w' Hdecode Hresponse Hunresolved Hrun) as [Hwrites Hstatus].
  split; [apply Hstatus; reflexivity | exact Hwrites].
Qed.

End PanicFreedom.

(** C4, as the code has it. Whatever the finish reasons of the response
    choices are, known or not, they never make the conversion fail, and
    each converted Choice carries the provider's string as it came. *)
Theorem convertChoices_keeps_finish_reasons :
  forall (libs : Libs) (store : ToolStore) (runId : UUID)
         (choices : list ChatCompletionChoice) (w : World),
    Forall (fun choice => convertible store runId (ChatCompletionChoice.Message choice))
      choices ->
    exists converted w',
      convertChoices libs choices runId store w = (Returned (Ok converted), w') /\
      map SentinelChoice.FinishReason converted
        = map ChatCompletionChoice.FinishReason choices.
Proof.
  intros libs store runId choices w Hconvertible. unfold convertChoices.
  destruct (convertChoices_from_convertible libs store runId choices Hconvertible [] w)
    as (converted & w' & Hrun).
  exists converted, w'. split; [exact Hrun|].
  apply convertChoices_from_ok in Hrun. destruct Hrun as (new & -> & Hnew).
  simpl. apply converted_choices_finish_reasons. exact Hnew.
Qed.

Lemma convertChoices_keeps_finish_reasons_witness :
  let libs := Scenario.libs_for (Scenario.request_of []) (Scenario.response_of []) in
  let store := Scenario.store_with (Ok []) [("search", 7%N)] (Ok (Some 100%N)) in
  let choices :=
    [Scenario.choice_of (Scenario.assistant_calls ["search"]) "tool_calls";
     Scenario.choice_of (Scenario.user_says "hi") "provider_drift"] in
  exists converted w',
    convertChoices libs choices Scenario.run1 store Scenario.world0
      = (Returned (Ok converted), w') /\
    map SentinelChoice.FinishReason converted = ["tool_calls"; "provider_drift"].
Proof.
  intros libs store choices.
  apply (convertChoices_keeps_finish_reasons libs store Scenario.run1 choices Scenario.world0).
  repeat constructor; try (eexists; reflexivity); intros parts Hparts; discriminate Hparts.
Defined.

(** C4, as stated, fails: no single "unrecognized" variant stands for the
    finish reasons outside the enumeration. Two provider strings that are
    not in it come out as two different finish reasons, each unchanged. *)
Lemma unknown_finish_reasons_not_marked :
  ~ unknown_finish_reasons_marked
      (Scenario.libs_for (Scenario.request_of []) (Scenario.response_of []))
      known_finish_reasons.
Proof.
  intros [unrecognized Hmarked].
  pose (store := Scenario.store_with (Ok []) [] (Ok (Some 100%N))).
  assert (forall finish,
             ~ In finish known_finish_reasons -> finish = unrecognized) as Hall.
  { intros finish Hunknown.
    apply (Hmarked store Scenario.run1
             (Scenario.choice_of (Scenario.user_says "hi") finish) Scenario.world0
             {| uuid_source := 2; store_writes := [] |}
             {| SentinelChoice.SentinelId := "1";
                SentinelChoice.Index := 0;
                SentinelChoice.Message := Scenario.stored "0" "hi";
                SentinelChoice.FinishReason := finish |}).
    - exact Hunknown.
    - reflexivity. }
  assert ("provider_drift" = "provider_drift_v2") as Habsurd.
  { transitivity unrecognized; [|symmetry]; apply Hall; simpl; intuition discriminate. }
  discriminate Habsurd.
Qed.

Section ClassificationFacts.

Lemma scanMultiContent_without_image parts msgType msgContent :
  Forall (fun part => ChatMessagePart.Type_ part <> "image_url") parts ->
  scanMultiContent parts msgType msgContent = Returned (msgType, msgContent).
Proof.
  induction 1 as [|part rest Hpart _ IH]; simpl; [reflexivity|].
  destruct (String.eqb_spec (ChatMessagePart.Type_ part) "image_url"); [contradiction|].
  exact IH.
Qed.

(** A message without multi-part content is a Text message with its raw
    content, empty or not. *)
Lemma classifyContent_text message :
  ChatCompletionMessage.MultiContent message = None ->
  classifyContent message = Returned (Text, ChatCompletionMessage.Content message).
Proof. intros H. unfold classifyContent. rewrite H. reflexivity. Qed.

Lemma scanMultiContent_last_image parts :
  Forall (fun part => ChatMessagePart.Type_ part = "image_url" ->
                      is_Some (ChatMessagePart.ImageURL part)) parts ->
  forall msgType msgContent,
    scanMultiContent parts msgType msgContent
      = Returned (match last_image_url parts with
                  | Some url => (ImageUrl, url)
                  | None => (msgType, msgContent)
                  end).
Proof.
  unfold last_image_url.
  induction 1 as [|part rest Hpart _ IH]; intros msgType msgContent; simpl; [reflexivity|].
  destruct (String.eqb_spec (ChatMessagePart.Type_ part) "image_url") as [Himage|_].
  - destruct (Hpart Himage) as [image Heq]. rewrite Heq. simpl.
    rewrite IH, last_cons. destruct (last (image_urls rest)); reflexivity.
  - simpl. apply IH.
Qed.

(** Multi-part content with an image: the message is an ImageUrl message
    whose content is the URL of the last image part. *)
Lemma classifyContent_last_image message parts url :
  ChatCompletionMessage.MultiContent message = Some parts ->
  Forall (fun part => ChatMessagePart.Type_ part = "image_url" ->
                      is_Some (ChatMessagePart.ImageURL part)) parts ->
  last_image_url parts = Some url ->
  classifyContent message = Returned (ImageUrl, url).
Proof.
  intros Hparts Hurls Hlast. unfold classifyContent. rewrite Hparts.
  rewrite (scanMultiContent_last_image parts Hurls), Hlast. reflexivity.
Qed.

(** An [image_url] part without its image makes the conversion panic. *)
Lemma classifyContent_image_without_url message part rest :
  ChatCompletionMessage.MultiContent message = Some (part :: rest) ->
  ChatMessagePart.Type_ part = "image_url" ->
  ChatMessagePart.ImageURL part = None ->
  classifyContent message = Panicked nil_dereference.
Proof.
  intros Hparts Htype Himage. unfold classifyContent. rewrite Hparts. simpl.
  rewrite Htype, Himage. reflexivity.
Qed.

Lemma MessageType_zero_is_not_Text : MessageType_zero <> Text.
Proof. discriminate. Qed.

End ClassificationFacts.

(** C6. A message with multi-part content and no image part is claimed to
    become a Text message with its raw text content. The code sets the type
    and the content only for an image part or when there is no multi-part
    content at all: here both keep their zero values, so the message gets
    the empty type and the empty content. *)
Theorem convertMessage_multipart_without_image :
  forall (libs : Libs) (store : ToolStore) (runId : UUID)
         (message : ChatCompletionMessage) (parts : list ChatMessagePart) (w : World),
    ChatCompletionMessage.ToolCalls message = [] ->
    ChatCompletionMessage.MultiContent message = Some parts ->
    Forall (fun part => ChatMessagePart.Type_ part <> "image_url") parts ->
    convertMessage libs message runId store w
      = (Returned (Ok {| SentinelMessage.Id := Some (uuid_String libs (uuid_source w));
                         SentinelMessage.Role := ChatCompletionMessage.Role message;
                         SentinelMessage.ToolCalls := Some [];
                         SentinelMessage.Type_ := Some MessageType_zero;
                         SentinelMessage.Content := "" |}),
         {| uuid_source := N.succ (uuid_source w); store_writes := store_writes w |}).
Proof.
  intros libs store runId message parts w Htools Hparts Hnoimage.
  unfold convertMessage, convertToolCalls. rewrite Htools. simpl.
  unfold classifyContent. rewrite Hparts.
  rewrite (scanMultiContent_without_image parts _ _ Hnoimage).
  reflexivity.
Qed.

Lemma convertMessage_multipart_without_image_witness :
  let libs := Scenario.libs_for (Scenario.request_of []) (Scenario.response_of []) in
  let store := Scenario.store_with (Ok []) [] (Ok (Some 100%N)) in
  let message :=
    {| ChatCompletionMessage.Role := "user";
       ChatCompletionMessage.Content := "";
       ChatCompletionMessage.MultiContent :=
         Some [{| ChatMessagePart.Type_ := "text";
                  ChatMessagePart.Text := "hello";
                  ChatMessagePart.ImageURL := None |}];
       ChatCompletionMessage.ToolCalls := [] |} in
  convertMessage libs message Scenario.run1 store Scenario.world0
    = (Returned (Ok {| SentinelMessage.Id := Some "0";
                       SentinelMessage.Role := "user";
                       SentinelMessage.ToolCalls := Some [];
                       SentinelMessage.Type_ := Some "";
                       SentinelMessage.Content := "" |}),
       {| uuid_source := 1; store_writes := [] |}).
Proof.
  intros libs store message.
  apply (convertMessage_multipart_without_image libs store Scenario.run1 message
           [{| ChatMessagePart.Type_ := "text";
               ChatMessagePart.Text := "hello";
               ChatMessagePart.ImageURL := None |}] Scenario.world0).
  - reflexivity.
  - reflexivity.
  - repeat constructor. discriminate.
Defined.

Section ProjectionFacts.

Lemma appendToolCallIds_map toolCalls :
  forall acc, appendToolCallIds toolCalls acc = acc ++ map toolCallIdsOf toolCalls.
Proof.
  induction toolCalls as [|toolCall rest IH]; intros acc; simpl.
  - rewrite app_nil_r. reflexivity.
  - rewrite IH, <- app_assoc. reflexivity.
Qed.

Lemma toolCallIdsOf_identifies toolCalls :
  Forall2 identifies toolCalls (map toolCallIdsOf toolCalls).
Proof.
  induction toolCalls as [|toolCall rest IH]; simpl; constructor;
    [split; reflexivity | exact IH].
Qed.

Lemma choiceIdsOf_ok choice entry :
  choiceIdsOf choice = Returned entry -> projected choice entry.
Proof.
  unfold choiceIdsOf, projected, tool_calls_of. intros H.
  destruct (SentinelMessage.Id (SentinelChoice.Message choice)) as [messageId|];
    simpl in H; inverts H; simpl.
  repeat split.
  destruct (SentinelMessage.ToolCalls (SentinelChoice.Message choice)) as [toolCalls|];
    [|constructor].
  rewrite appendToolCallIds_map. apply toolCallIdsOf_identifies.
Qed.

Lemma extractChoiceIds_from_ok choices :
  forall acc entries,
    extractChoiceIds_from choices acc = Returned entries ->
    exists new, entries = acc ++ new /\ Forall2 projected choices new.
Proof.
  induction choices as [|choice rest IH]; intros acc entries H; simpl in H.
  - inverts H. exists []. rewrite app_nil_r. split; [reflexivity | constructor].
  - destruct (choiceIdsOf choice) as [entry|r] eqn:Hentry; [|discriminate].
    apply IH in H. destruct H as (new & -> & Hnew).
    exists (entry :: new). rewrite <- app_assoc. split; [reflexivity|].
    constructor; [apply choiceIdsOf_ok; exact Hentry | exact Hnew].
Qed.

Lemma extractChatIds_ok chatId choices chatIds :
  extractChatIds chatId choices = Returned chatIds ->
  ChatIds.ChatId chatIds = chatId /\ Forall2 projected choices (ChatIds.ChoiceIds chatIds).
Proof.
  unfold extractChatIds. intros H.
  destruct (extractChoiceIds_from choices []) as [entries|r] eqn:Hentries; inverts H.
  apply extractChoiceIds_from_ok in Hentries. destruct Hentries as (new & -> & Hnew).
  split; [reflexivity | exact Hnew].
Qed.

End ProjectionFacts.

(** C7. A successful ingestion has converted every choice of the response
    and written the converted choices to the Store, and the identifiers it
    returns are their projection: one entry per converted Choice, with the
    identifiers of the Choice and of its Message and one pair of tool call
    and tool identifiers per ToolCall of that Message, in order, none left
    out and none repeated. *)
Theorem chat_ids_cover_converted_records :
  forall (libs : Libs) (store : Store) (runId : UUID) (rawBody : string)
         (w w' : World) (r : Response),
    apiCreateNewChatHandler libs rawBody runId store w = (Returned r, w') ->
    status r = StatusOK ->
    exists payload jsonResponse response call chatIds,
      json_Decode_SentinelChat libs rawBody = Ok payload /\
      validateAndDecodeResponse libs (SentinelChat.ResponseData payload)
        = Ok (jsonResponse, response) /\
      store_writes w' = store_writes w ++ [call] /\
      body r = JSONChatIds chatIds /\
      Forall2 converted_choice (ChatCompletionResponse.Choices response)
        (CreateChatRequestCall.choices call) /\
      Forall2 projected (CreateChatRequestCall.choices call) (ChatIds.ChoiceIds chatIds).
Proof.
  intros libs store runId rawBody w w' r Hrun Hstatus.
  destruct (apiCreateNewChatHandler_cases libs _ _ _ _ _ _ Hrun)
    as [[_ Hstop] | (call & Hissued & Hwrites & Hafter)].
  { rewrite (Hstop r eq_refl) in Hstatus. discriminate Hstatus. }
  destruct Hissued as (payload & jsonRequest & requestMessages & w1 & newRequestMessages
                       & jsonResponse & response & choices & w2
                       & Hdecode & _ & _ & Hresponse & Hchoices & ->).
  unfold after_write in Hafter. simpl in Hafter.
  destruct (CreateChatRequest store runId jsonRequest jsonResponse choices "openai"
              newRequestMessages) as [[chatId|]|e].
  2: discriminate Hafter.
  2: { inverts Hafter. discriminate Hstatus. }
  destruct (extractChatIds chatId choices) as [chatIds|reason] eqn:Hextract;
    [|discriminate Hafter].
  inverts Hafter.
  apply extractChatIds_ok in Hextract. destruct Hextract as [_ Hprojected].
  apply convertChoices_from_ok in Hchoices. destruct Hchoices as (new & Heq & Hconverted).
  simpl in Heq. subst new.
  eexists payload, jsonResponse, response, _, chatIds.
  repeat split; try eassumption; reflexivity.
Qed.

Lemma chat_ids_cover_converted_records_witness :
  let libs :=
    Scenario.libs_for
      (Scenario.request_of
         [Scenario.user_says "a"; Scenario.user_says "b"; Scenario.user_says "c"])
      (Scenario.response_of
         [Scenario.choice_of (Scenario.assistant_calls ["search"; "search"]) "tool_calls"]) in
  let store :=
    Scenario.store_with (Ok [Scenario.stored "m1" "a"; Scenario.stored "m2" "b"])
      [("search", 7%N)] (Ok (Some 100%N)) in
  exists w' r payload jsonResponse response call chatIds,
    apiCreateNewChatHandler libs "{}" Scenario.run1 store Scenario.world0 = (Returned r, w') /\
    status r = StatusOK /\
    json_Decode_SentinelChat libs "{}" = Ok payload /\
    validateAndDecodeResponse libs (SentinelChat.ResponseData payload)
      = Ok (jsonResponse, response) /\
    store_writes w' = store_writes Scenario.world0 ++ [call] /\
    body r = JSONChatIds chatIds /\
    Forall2 converted_choice (ChatCompletionResponse.Choices response)
      (CreateChatRequestCall.choices call) /\
    Forall2 projected (CreateChatRequestCall.choices call) (ChatIds.ChoiceIds chatIds).
Proof.
  intros libs store.
  assert (exists r w',
             apiCreateNewChatHandler libs "{}" Scenario.run1 store Scenario.world0
               = (Returned r, w') /\ status r = StatusOK) as (r & w' & Hrun & Hstatus).
  { eexists _, _. split; [vm_compute; reflexivity | reflexivity]. }
  destruct (chat_ids_cover_converted_records libs store Scenario.run1 "{}"
              Scenario.world0 w' r Hrun Hstatus)
    as (payload & jsonResponse & response & call & chatIds & H).
  exists w', r, payload, jsonResponse, response, call, chatIds.
  split; [exact Hrun|]. split; [exact Hstatus|]. exact H.
Defined.

(** The scenario of the design document: run R1 has two messages logged;
    the request carries [m1; m2; m3] and the response one choice without
    tool calls that stopped. Exactly [m3] is written as new, and the
    identifiers returned are those of one Choice with one Message and no
    tool call. *)
Example scenario_R1 :
  let libs :=
    Scenario.libs_for
      (Scenario.request_of
         [Scenario.user_says "m1"; Scenario.user_says "m2"; Scenario.user_says "m3"])
      (Scenario.response_of [Scenario.choice_of (Scenario.assistant_calls []) "stop"]) in
  let store :=
    Scenario.store_with (Ok [Scenario.stored "a" "m1"; Scenario.stored "b" "m2"]) []
      (Ok (Some 100%N)) in
  exists call w',
    apiCreateNewChatHandler libs "{}" Scenario.run1 store Scenario.world0
      = (Returned
           (respondJSON
              (JSONChatIds
                 {| ChatIds.ChatId := 100%N;
                    ChatIds.ChoiceIds :=
                      [{| ChoiceIds.ChoiceId := "4";
                          ChoiceIds.MessageId := "3";
                          ChoiceIds.ToolCallIds := [] |}] |})
              StatusOK), w') /\
    store_writes w' = [call] /\
    CreateChatRequestCall.newRequestMessages call = [Scenario.stored "2" "m3"].
Proof.
  intros libs store. eexists _, _. split; [vm_compute; reflexivity|].
  split; reflexivity.
Qed.

Section ToolCallStateFacts.
Context (libs : Libs) (getToolCallStatus : UUID -> Store -> result Status).

(** A response sent from inside the chain loop is a 500. *)
Lemma collectChainStates_early_response chains toolCallId store :
  forall acc response,
    collectChainStates chains toolCallId store acc = Returned (inl response) ->
    status response = StatusInternalServerError.
Proof.
  induction chains as [|chain rest IH]; intros acc response H; simpl in H; [discriminate|].
  destruct (GetChainExecutionFromChainAndToolCall store _ _) as [[executionId|]|e];
    simpl in H; try discriminate; [|inverts H; reflexivity].
  destruct (GetChainExecutionState store executionId) as [[state|]|e];
    simpl in H; try discriminate; [|inverts H; reflexivity].
  eapply IH; eauto.
Qed.

(** A 200 from the state handler carries the chain states the loop
    collected and the status [getToolCallStatus] gives for the identifier
    and the Store. *)
Lemma apiGetToolCallStateHandler_ok toolCallId store execution :
  apiGetToolCallStateHandler libs getToolCallStatus toolCallId store
    = Returned (respondJSON (JSONRunExecution execution) StatusOK) ->
  exists toolCall toolId chains,
    GetToolCall store toolCallId = Ok (Some toolCall) /\
    uuid_Parse libs (SentinelToolCall.ToolId toolCall) = Ok toolId /\
    GetSupervisorChains store toolId = Ok chains /\
    collectChainStates chains toolCallId store []
      = Returned (inr (RunExecution.Chains execution)) /\
    RunExecution.Toolcall execution = toolCall /\
    getToolCallStatus toolCallId store = Ok (RunExecution.Status_ execution).
Proof.
  unfold apiGetToolCallStateHandler. intros H.
  destruct (GetToolCall store toolCallId) as [[toolCall|]|e] eqn:Htool;
    try (inverts H; fail).
  destruct (uuid_Parse libs _) as [toolId|e] eqn:Hparse; try (inverts H; fail).
  destruct (GetSupervisorChains store toolId) as [chains|e] eqn:Hchains;
    try (inverts H; fail).
  destruct (collectChainStates chains toolCallId store []) as [[response|chainStates]|r]
    eqn:Hcollect; try discriminate H.
  - inverts H. apply collectChainStates_early_response in Hcollect. discriminate Hcollect.
  - destruct (getToolCallStatus toolCallId store) as [status|e] eqn:Hstatus; inverts H.
    exists toolCall, toolId, chains. simpl. repeat split; assumption || reflexivity.
Qed.

End ToolCallStateFacts.

(** C9. A chain that was never executed against the tool call is claimed to
    be reported to the caller as an error. When the lookup answers with
    neither an execution nor an error, the handler dereferences the missing
    identifier and panics; no response is sent. *)
Theorem never_executed_chain_panics :
  forall (libs : Libs) (getToolCallStatus : UUID -> Store -> result Status)
         (toolCallId : UUID) (store : Store) (toolCall : SentinelToolCall) (toolId : UUID)
         (chain : Chain) (rest : list Chain),
    GetToolCall store toolCallId = Ok (Some toolCall) ->
    uuid_Parse libs (SentinelToolCall.ToolId toolCall) = Ok toolId ->
    GetSupervisorChains store toolId = Ok (chain :: rest) ->
    GetChainExecutionFromChainAndToolCall store (Chain.ChainId chain) toolCallId = Ok None ->
    apiGetToolCallStateHandler libs getToolCallStatus toolCallId store
      = Panicked nil_dereference.
Proof.
  intros libs getToolCallStatus toolCallId store toolCall toolId chain rest
    Htool Hparse Hchains Hnever.
  unfold apiGetToolCallStateHandler. rewrite Htool, Hparse, Hchains. simpl.
  rewrite Hnever. reflexivity.
Qed.

Lemma never_executed_chain_panics_witness :
  let libs := Scenario.libs_for (Scenario.request_of []) (Scenario.response_of []) in
  let store :=
    Scenario.store_with_chains [{| Chain.ChainId := 21%N |}] (fun _ => Ok None)
      (fun _ => Ok None) in
  apiGetToolCallStateHandler libs Scenario.status_on_record 11%N store
    = Panicked nil_dereference.
Proof.
  intros libs store.
  apply (never_executed_chain_panics libs Scenario.status_on_record 11%N store
           Scenario.search_call 6%N {| Chain.ChainId := 21%N |} []); reflexivity.
Defined.

(** The tool call lookup of the same handler does check for absence. *)
Lemma missing_tool_call_is_404 libs getToolCallStatus toolCallId store :
  GetToolCall store toolCallId = Ok None ->
  apiGetToolCallStateHandler libs getToolCallStatus toolCallId store
    = Returned (sendErrorResponse StatusNotFound "Run not found" "").
Proof. intros H. unfold apiGetToolCallStateHandler. rewrite H. reflexivity. Qed.

Section HubFacts.
Context (bound : nat).






















End HubFacts.




(** * Further properties of the handlers *)

Section ToolCallConversion.
Context (libs : Libs).

Lemma convertToolCalls_from_resolved store runId toolCalls :
  Forall (resolves store runId) toolCalls ->
  forall acc w, exists new w',
    convertToolCalls_from libs toolCalls runId store acc w = (Returned (Ok (acc ++ new)), w') /\
    store_writes w' = store_writes w /\
    Forall2 (converted_tool_call libs store runId) toolCalls new.
Proof.
  induction 1 as [|toolCall rest [tool Htool] _ IH]; intros acc w; simpl.
  - exists [], w. rewrite app_nil_r. repeat split. constructor.
  - unfold bind at 1, convertToolCall. rewrite Htool. go_unfold. simpl.
    match goal with
    | |- context [convertToolCalls_from _ _ _ _ (acc ++ [?c]) ?w1] =>
        destruct (IH (acc ++ [c]) w1) as (new & w' & Heq & Hwrites & Hrel);
        exists (c :: new), w'
    end.
    rewrite Heq, <- app_assoc. repeat split; [exact Hwrites|].
    constructor; [|exact Hrel]. repeat split. exists tool. split; [exact Htool | reflexivity].
Qed.

Lemma convertToolCalls_from_first_unknown store runId before bad rest :
  Forall (resolves store runId) before ->
  unresolved store runId bad ->
  forall acc w, exists w',
    convertToolCalls_from libs (before ++ bad :: rest) runId store acc w
      = (Returned (Err ("error converting tool call: "
                          +:+ ("tool not found: "
                                 +:+ FunctionCall.Name (ToolCall.Function bad)))), w') /\
    store_writes w' = store_writes w.
Proof.
  intros Hbefore Hbad.
  induction Hbefore as [|toolCall before' [tool Htool] _ IH]; intros acc w; simpl.
  - unfold bind at 1, convertToolCall. unfold unresolved in Hbad. rewrite Hbad.
    go_unfold. exists w. split; reflexivity.
  - unfold bind at 1, convertToolCall. rewrite Htool. go_unfold. simpl.
    match goal with
    | |- context [convertToolCalls_from _ _ _ _ (acc ++ [?c]) ?w1] =>
        destruct (IH (acc ++ [c]) w1) as (w' & Heq & Hwrites); exists w'
    end.
    split; [exact Heq | exact Hwrites].
Qed.

(** [convertMessage], once the tool calls are converted and the content is
    classified. *)
Lemma convertMessage_eval store runId message w toolCalls w1 msgType msgContent :
  convertToolCalls libs (ChatCompletionMessage.ToolCalls message) runId store w
    = (Returned (Ok toolCalls), w1) ->
  classifyContent message = Returned (msgType, msgContent) ->
  convertMessage libs message runId store w
    = (Returned (Ok {| SentinelMessage.Id := Some (uuid_String libs (uuid_source w1));
                       SentinelMessage.Role := ChatCompletionMessage.Role message;
                       SentinelMessage.ToolCalls := Some toolCalls;
                       SentinelMessage.Type_ := Some msgType;
                       SentinelMessage.Content := msgContent |}),
       {| uuid_source := N.succ (uuid_source w1); store_writes := store_writes w1 |}).
Proof.
  intros Htools Hclassified. unfold convertMessage, bind at 1. rewrite Htools.
  go_unfold. rewrite Hclassified. reflexivity.
Qed.

Lemma scanMultiContent_image_without_url before part rest :
  Forall image_part_has_url before ->
  ChatMessagePart.Type_ part = "image_url" ->
  ChatMessagePart.ImageURL part = None ->
  forall msgType msgContent,
    scanMultiContent (before ++ part :: rest) msgType msgContent = Panicked nil_dereference.
Proof.
  intros Hbefore Htype Himage.
  induction Hbefore as [|first before' Hfirst _ IH]; intros msgType msgContent; simpl.
  - rewrite Htype, Himage. reflexivity.
  - destruct (String.eqb_spec (ChatMessagePart.Type_ first) "image_url") as [Himg|_].
    + destruct (Hfirst Himg) as [image ->]. simpl. apply IH.
    + apply IH.
Qed.

End ToolCallConversion.

Lemma convertToolCalls_resolved_aux (libs : Libs) (store : ToolStore) runId toolCalls w :
  Forall (resolves store runId) toolCalls ->
  exists converted w',
    convertToolCalls libs toolCalls runId store w = (Returned (Ok converted), w') /\
    store_writes w' = store_writes w /\
    Forall2 (converted_tool_call libs store runId) toolCalls converted.
Proof.
  intros Hresolves. unfold convertToolCalls.
  destruct (convertToolCalls_from_resolved libs store runId toolCalls Hresolves [] w)
    as (new & w' & Heq & Hwrites & Hrel).
  exists new, w'. auto.
Qed.

(** X1. When the Store has a tool for every tool call of a message,
    [convertToolCalls] succeeds without a Store write and returns one record
    per tool call, in the order of the calls: each carries the call's name
    and raw arguments and the identifier of the tool found under that name. *)
Theorem convertToolCalls_resolved :
  forall (libs : Libs) (store : ToolStore) (runId : UUID) (toolCalls : list ToolCall)
         (w : World),
    Forall (resolves store runId) toolCalls ->
    exists converted w',
      convertToolCalls libs toolCalls runId store w = (Returned (Ok converted), w') /\
      store_writes w' = store_writes w /\
      Forall2 (converted_tool_call libs store runId) toolCalls converted.
Proof.
  intros libs store runId toolCalls w Hresolves. unfold convertToolCalls.
  destruct (convertToolCalls_from_resolved libs store runId toolCalls Hresolves [] w)
    as (new & w' & Heq & Hwrites & Hrel).
  exists new, w'. auto.
Qed.

Lemma convertToolCalls_resolved_witness :
  let libs := Scenario.libs_for (Scenario.request_of []) (Scenario.response_of []) in
  let store :=
    Scenario.store_with (Ok []) [("search", 7%N); ("fetch", 9%N)] (Ok (Some 100%N)) in
  let toolCalls :=
    ChatCompletionMessage.ToolCalls (Scenario.assistant_calls ["fetch"; "search"]) in
  exists converted w',
    convertToolCalls libs toolCalls Scenario.run1 store Scenario.world0
      = (Returned (Ok converted), w') /\
    store_writes w' = store_writes Scenario.world0 /\
    Forall2 (converted_tool_call libs store Scenario.run1) toolCalls converted.
Proof.
  intros libs store toolCalls.
  apply (convertToolCalls_resolved libs store Scenario.run1 toolCalls Scenario.world0).
  repeat constructor; eexists; reflexivity.
Defined.

(** X2. [convertToolCalls] stops at the first tool call whose tool the Store
    does not have: the error names that tool, whatever follows it in the
    list, and nothing is returned for the calls before it. *)
Theorem convertToolCalls_stops_at_first_unknown :
  forall (libs : Libs) (store : ToolStore) (runId : UUID)
         (before : list ToolCall) (bad : ToolCall) (rest : list ToolCall) (w : World),
    Forall (resolves store runId) before ->
    unresolved store runId bad ->
    exists w',
      convertToolCalls libs (before ++ bad :: rest) runId store w
        = (Returned (Err ("error converting tool call: "
                            +:+ ("tool not found: "
                                   +:+ FunctionCall.Name (ToolCall.Function bad)))), w') /\
      store_writes w' = store_writes w.
Proof.
  intros libs store runId before bad rest w Hbefore Hbad. unfold convertToolCalls.
  apply convertToolCalls_from_first_unknown; assumption.
Qed.

Lemma convertToolCalls_stops_at_first_unknown_witness :
  let libs := Scenario.libs_for (Scenario.request_of []) (Scenario.response_of []) in
  let store := Scenario.store_with (Ok []) [("search", 7%N)] (Ok (Some 100%N)) in
  let call name :=
    {| ToolCall.ID := "call_" +:+ name;
       ToolCall.Function := {| FunctionCall.Name := name; FunctionCall.Arguments := "{}" |} |} in
  exists w',
    convertToolCalls libs ([call "search"] ++ call "ghost" :: [call "phantom"]) Scenario.run1
      store Scenario.world0
      = (Returned (Err "error converting tool call: tool not found: ghost"), w') /\
    store_writes w' = store_writes Scenario.world0.
Proof.
  intros libs store call.
  apply (convertToolCalls_stops_at_first_unknown libs store Scenario.run1
           [call "search"] (call "ghost") [call "phantom"] Scenario.world0).
  - repeat constructor. eexists. reflexivity.
  - reflexivity.
Defined.

(** X3. A message without multi-part content whose tool calls all resolve
    becomes a Text message: the content and the role are the message's own,
    the content possibly empty, and the identifier, the tool call list and
    the type are all set, the list also when the message has no tool call. *)
Theorem convertMessage_plain_text :
  forall (libs : Libs) (store : ToolStore) (runId : UUID)
         (message : ChatCompletionMessage) (w : World),
    Forall (resolves store runId) (ChatCompletionMessage.ToolCalls message) ->
    ChatCompletionMessage.MultiContent message = None ->
    exists id toolCalls w',
      convertMessage libs message runId store w
        = (Returned (Ok {| SentinelMessage.Id := Some id;
                           SentinelMessage.Role := ChatCompletionMessage.Role message;
                           SentinelMessage.ToolCalls := Some toolCalls;
                           SentinelMessage.Type_ := Some Text;
                           SentinelMessage.Content := ChatCompletionMessage.Content message |}),
           w') /\
      Forall2 (converted_tool_call libs store runId)
        (ChatCompletionMessage.ToolCalls message) toolCalls.
Proof.
  intros libs store runId message w Hresolves Hplain.
  destruct (convertToolCalls_resolved_aux libs store runId _ w Hresolves)
    as (toolCalls & w1 & Htools & _ & Hrel).
  eexists _, toolCalls, _. split; [|exact Hrel].
  apply (convertMessage_eval libs store runId message w toolCalls w1 Text
           (ChatCompletionMessage.Content message) Htools).
  apply classifyContent_text. exact Hplain.
Qed.

Lemma convertMessage_plain_text_witness :
  let libs := Scenario.libs_for (Scenario.request_of []) (Scenario.response_of []) in
  let store := Scenario.store_with (Ok []) [] (Ok (Some 100%N)) in
  exists id toolCalls w',
    convertMessage libs (Scenario.user_says "") Scenario.run1 store Scenario.world0
      = (Returned (Ok {| SentinelMessage.Id := Some id;
                         SentinelMessage.Role := "user";
                         SentinelMessage.ToolCalls := Some toolCalls;
                         SentinelMessage.Type_ := Some Text;
                         SentinelMessage.Content := "" |}), w') /\
    Forall2 (converted_tool_call libs store Scenario.run1) [] toolCalls.
Proof.
  intros libs store.
  apply (convertMessage_plain_text libs store Scenario.run1 (Scenario.user_says "")
           Scenario.world0).
  - constructor.
  - reflexivity.
Defined.

(** X4. A message with multi-part content in which every image part carries
    its image, and at least one part is an image, becomes an ImageUrl
    message whose content is the URL of the last image part; the text parts
    and the message's own text are not kept. *)
Theorem convertMessage_last_image :
  forall (libs : Libs) (store : ToolStore) (runId : UUID)
         (message : ChatCompletionMessage) (parts : list ChatMessagePart) (url : string)
         (w : World),
    Forall (resolves store runId) (ChatCompletionMessage.ToolCalls message) ->
    ChatCompletionMessage.MultiContent message = Some parts ->
    Forall image_part_has_url parts ->
    last_image_url parts = Some url ->
    exists id toolCalls w',
      convertMessage libs message runId store w
        = (Returned (Ok {| SentinelMessage.Id := Some id;
                           SentinelMessage.Role := ChatCompletionMessage.Role message;
                           SentinelMessage.ToolCalls := Some toolCalls;
                           SentinelMessage.Type_ := Some ImageUrl;
                           SentinelMessage.Content := url |}), w').
Proof.
  intros libs store runId message parts url w Hresolves Hparts Hurls Hlast.
  destruct (convertToolCalls_resolved_aux libs store runId _ w Hresolves)
    as (toolCalls & w1 & Htools & _ & _).
  eexists _, toolCalls, _.
  apply (convertMessage_eval libs store runId message w toolCalls w1 ImageUrl url Htools).
  exact (classifyContent_last_image message parts url Hparts Hurls Hlast).
Qed.

Lemma convertMessage_last_image_witness :
  let libs := Scenario.libs_for (Scenario.request_of []) (Scenario.response_of []) in
  let store := Scenario.store_with (Ok []) [] (Ok (Some 100%N)) in
  let image url :=
    {| ChatMessagePart.Type_ := "image_url";
       ChatMessagePart.Text := "";
       ChatMessagePart.ImageURL := Some {| ChatMessageImageURL.URL := url |} |} in
  let text t :=
    {| ChatMessagePart.Type_ := "text";
       ChatMessagePart.Text := t;
       ChatMessagePart.ImageURL := None |} in
  let message :=
    {| ChatCompletionMessage.Role := "user";
       ChatCompletionMessage.Content := "own text";
       ChatCompletionMessage.MultiContent :=
         Some [image "https://a/1.png"; text "and"; image "https://a/2.png"; text "compare"];
       ChatCompletionMessage.ToolCalls := [] |} in
  exists id toolCalls w',
    convertMessage libs message Scenario.run1 store Scenario.world0
      = (Returned (Ok {| SentinelMessage.Id := Some id;
                         SentinelMessage.Role := "user";
                         SentinelMessage.ToolCalls := Some toolCalls;
                         SentinelMessage.Type_ := Some ImageUrl;
                         SentinelMessage.Content := "https://a/2.png" |}), w').
Proof.
  intros libs store image text message.
  apply (convertMessage_last_image libs store Scenario.run1 message
           [image "https://a/1.png"; text "and"; image "https://a/2.png"; text "compare"]
           "https://a/2.png" Scenario.world0).
  - constructor.
  - reflexivity.
  - repeat constructor; intros H; (discriminate H || (eexists; reflexivity)).
  - reflexivity.
Defined.

(** X5. [convertMessage] reads [content.ImageURL.URL] of every image part
    without a nil check: when the first image part that lacks its image is
    reached, the conversion panics, the tool calls having been converted. *)
Theorem convertMessage_image_without_url_panics :
  forall (libs : Libs) (store : ToolStore) (runId : UUID)
         (message : ChatCompletionMessage)
         (before : list ChatMessagePart) (part : ChatMessagePart)
         (rest : list ChatMessagePart) (w : World),
    Forall (resolves store runId) (ChatCompletionMessage.ToolCalls message) ->
    ChatCompletionMessage.MultiContent message = Some (before ++ part :: rest) ->
    Forall image_part_has_url before ->
    ChatMessagePart.Type_ part = "image_url" ->
    ChatMessagePart.ImageURL part = None ->
    exists w',
      convertMessage libs message runId store w = (Panicked nil_dereference, w') /\
      store_writes w' = store_writes w.
Proof.
  intros libs store runId message before part rest w Hresolves Hparts Hbefore Htype Himage.
  destruct (convertToolCalls_resolved_aux libs store runId _ w Hresolves)
    as (toolCalls & w1 & Htools & Hwrites & _).
  exists w1. split; [|exact Hwrites].
  unfold convertMessage, bind at 1. rewrite Htools.
  unfold bind at 1, lift at 1, classifyContent. rewrite Hparts.
  rewrite (scanMultiContent_image_without_url before part rest Hbefore Htype Himage).
  reflexivity.
Qed.

Lemma convertMessage_image_without_url_panics_witness :
  let libs := Scenario.libs_for (Scenario.request_of []) (Scenario.response_of []) in
  let store := Scenario.store_with (Ok []) [] (Ok (Some 100%N)) in
  let text :=
    {| ChatMessagePart.Type_ := "text";
       ChatMessagePart.Text := "look";
       ChatMessagePart.ImageURL := None |} in
  let broken :=
    {| ChatMessagePart.Type_ := "image_url";
       ChatMessagePart.Text := "";
       ChatMessagePart.ImageURL := None |} in
  let message :=
    {| ChatCompletionMessage.Role := "user";
       ChatCompletionMessage.Content := "";
       ChatCompletionMessage.MultiContent := Some ([text] ++ broken :: []);
       ChatCompletionMessage.ToolCalls := [] |} in
  exists w',
    convertMessage libs message Scenario.run1 store Scenario.world0
      = (Panicked nil_dereference, w') /\
    store_writes w' = store_writes Scenario.world0.
Proof.
  intros libs store text broken message.
  apply (convertMessage_image_without_url_panics libs store Scenario.run1 message
           [text] broken [] Scenario.world0).
  - constructor.
  - reflexivity.
  - repeat constructor. intros H. discriminate H.
  - reflexivity.
  - reflexivity.
Defined.

(** X6. [convertMessage] converts the tool calls before it looks at the
    content: a message with a tool call the Store has no tool for is
    answered with an error, whatever its content is, also where the content
    alone would make the conversion panic. *)
Theorem convertMessage_unknown_tool_before_content :
  forall (libs : Libs) (store : ToolStore) (runId : UUID)
         (message : ChatCompletionMessage) (w : World),
    Exists (unresolved store runId) (ChatCompletionMessage.ToolCalls message) ->
    exists e w',
      convertMessage libs message runId store w
        = (Returned (Err ("error converting tool calls: " +:+ e)), w') /\
      store_writes w' = store_writes w.
Proof.
  intros libs store runId message w Hunresolved.
  unfold convertMessage, convertToolCalls, bind at 1.
  destruct (convertToolCalls_from_unresolved libs store runId _ Hunresolved [] w)
    as (e & w' & Heq).
  rewrite Heq. exists e, w'. split; [reflexivity|].
  exact (writes_nothing_convertToolCalls_from libs _ _ _ _ _ _ _ Heq).
Qed.

Lemma convertMessage_unknown_tool_before_content_witness :
  let libs := Scenario.libs_for (Scenario.request_of []) (Scenario.response_of []) in
  let store := Scenario.store_with (Ok []) [] (Ok (Some 100%N)) in
  let message :=
    {| ChatCompletionMessage.Role := "assistant";
       ChatCompletionMessage.Content := "";
       ChatCompletionMessage.MultiContent :=
         Some [{| ChatMessagePart.Type_ := "image_url";
                  ChatMessagePart.Text := "";
                  ChatMessagePart.ImageURL := None |}];
       ChatCompletionMessage.ToolCalls :=
         ChatCompletionMessage.ToolCalls (Scenario.assistant_calls ["ghost"]) |} in
  exists e w',
    convertMessage libs message Scenario.run1 store Scenario.world0
      = (Returned (Err ("error converting tool calls: " +:+ e)), w') /\
    store_writes w' = store_writes Scenario.world0.
Proof.
  intros libs store message.
  apply (convertMessage_unknown_tool_before_content libs store Scenario.run1 message
           Scenario.world0).
  apply Exists_cons_hd. reflexivity.
Defined.

Section RequestConversion.
Context (libs : Libs).

Lemma convertMessages_from_ok store runId messages :
  forall acc w converted w',
    convertMessages_from libs messages runId store acc w = (Returned (Ok converted), w') ->
    exists new, converted = acc ++ new /\ Forall2 converted_message messages new.
Proof.
  induction messages as [|message rest IH]; intros acc w converted w' Hrun.
  - inverts Hrun. exists []. rewrite app_nil_r. split; [reflexivity | constructor].
  - simpl in Hrun. unfold bind at 1 in Hrun.
    destruct (convertMessage libs message runId store w) as [[[first|e]|r] w1] eqn:Hmessage;
      try (inverts Hrun; fail).
    apply convertMessage_ok in Hmessage.
    apply IH in Hrun. destruct Hrun as (new & -> & Hnew).
    exists (first :: new). rewrite <- app_assoc. split; [reflexivity|].
    constructor; assumption.
Qed.

Lemma validateAndDecodeRequest_ok encodedData runId store w jsonRequest converted w' :
  validateAndDecodeRequest libs encodedData runId store w
    = (Returned (Ok (jsonRequest, converted)), w') ->
  exists decoded v,
    base64_DecodeString libs encodedData = Ok decoded /\
    json_Unmarshal_Request libs decoded = Ok v /\
    json_Marshal_Request libs v = Ok jsonRequest /\
    Forall2 converted_message (ChatCompletionRequest.Messages v) converted.
Proof.
  unfold validateAndDecodeRequest. intros Hrun.
  destruct (base64_DecodeString libs encodedData) as [decoded|e]; [|inverts Hrun].
  destruct (json_Unmarshal_Request libs decoded) as [v|e] eqn:Hjson; [|inverts Hrun].
  unfold bind at 1 in Hrun.
  destruct (convertMessages_from libs _ runId store [] w) as [[[messages|e]|r] w1] eqn:Hloop;
    try (inverts Hrun; fail).
  destruct (json_Marshal_Request libs v) as [marshaled|e] eqn:Hmarshal; inverts Hrun.
  apply convertMessages_from_ok in Hloop. destruct Hloop as (new & Heq & Hnew).
  simpl in Heq. subst new.
  exists decoded, v. auto.
Qed.

Lemma convertMessages_from_unresolved store runId messages :
  Forall image_parts_have_url messages ->
  Exists (fun message =>
            Exists (unresolved store runId) (ChatCompletionMessage.ToolCalls message))
    messages ->
  forall acc w, exists e w',
    convertMessages_from libs messages runId store acc w
      = (Returned (Err ("error converting messages: " +:+ e)), w') /\
    store_writes w' = store_writes w.
Proof.
  induction 1 as [|message rest Hmessage _ IH]; intros Hex acc w.
  - inversion Hex.
  - simpl. unfold bind at 1.
    destruct (convertMessage_returns libs store runId message Hmessage w)
      as ([converted|e] & w1 & Hrun).
    + rewrite Hrun.
      pose proof (writes_nothing_convertMessage libs _ _ _ _ _ _ Hrun) as Hw1.
      apply Exists_cons in Hex. destruct Hex as [Hhead | Htail].
      * destruct (convertMessage_unresolved libs store runId _ Hhead w) as (e & w2 & Heq).
        congruence.
      * destruct (IH Htail (acc ++ [converted]) w1) as (e & w' & Heq & Hwrites).
        exists e, w'. split; [exact Heq | congruence].
    + rewrite Hrun. unfold ret. exists e, w1. split; [reflexivity|].
      exact (writes_nothing_convertMessage libs _ _ _ _ _ _ Hrun).
Qed.

End RequestConversion.

(** X7. When [validateAndDecodeRequest] succeeds, the bytes it returns are
    the decoded request marshalled again (not the bytes received), and the
    messages it returns are the request's messages converted one for one and
    in order, each with an identifier, its role and its tool calls. *)
Theorem validateAndDecodeRequest_preserves_messages :
  forall (libs : Libs) (encodedData : string) (runId : UUID) (store : ToolStore)
         (w w' : World) (jsonRequest : bytes) (converted : list SentinelMessage),
    validateAndDecodeRequest libs encodedData runId store w
      = (Returned (Ok (jsonRequest, converted)), w') ->
    store_writes w' = store_writes w /\
    exists decoded v,
      base64_DecodeString libs encodedData = Ok decoded /\
      json_Unmarshal_Request libs decoded = Ok v /\
      json_Marshal_Request libs v = Ok jsonRequest /\
      Forall2 converted_message (ChatCompletionRequest.Messages v) converted.
Proof.
  intros libs encodedData runId store w w' jsonRequest converted Hrun.
  split.
  - exact (writes_nothing_validateAndDecodeRequest libs _ _ _ _ _ _ Hrun).
  - exact (validateAndDecodeRequest_ok libs _ _ _ _ _ _ _ Hrun).
Qed.

Lemma validateAndDecodeRequest_preserves_messages_witness :
  let request :=
    Scenario.request_of [Scenario.user_says "a"; Scenario.assistant_calls ["search"]] in
  let libs := Scenario.libs_for request (Scenario.response_of []) in
  let store := Scenario.store_with (Ok []) [("search", 7%N)] (Ok (Some 100%N)) in
  exists w' jsonRequest converted,
    validateAndDecodeRequest libs "cmVxdWVzdA==" Scenario.run1 store Scenario.world0
      = (Returned (Ok (jsonRequest, converted)), w') /\
    store_writes w' = store_writes Scenario.world0 /\
    exists decoded v,
      base64_DecodeString libs "cmVxdWVzdA==" = Ok decoded /\
      json_Unmarshal_Request libs decoded = Ok v /\
      json_Marshal_Request libs v = Ok jsonRequest /\
      Forall2 converted_message (ChatCompletionRequest.Messages v) converted.
Proof.
  intros request libs store.
  assert (exists w' jsonRequest converted,
             validateAndDecodeRequest libs "cmVxdWVzdA==" Scenario.run1 store Scenario.world0
               = (Returned (Ok (jsonRequest, converted)), w'))
    as (w' & jsonRequest & converted & Hrun).
  { eexists _, _, _. vm_compute. reflexivity. }
  exists w', jsonRequest, converted. split; [exact Hrun|].
  exact (validateAndDecodeRequest_preserves_messages libs _ _ _ _ _ _ _ Hrun).
Defined.

(** X8. A successful ingestion writes as many new messages as the request
    has beyond the messages already logged for the run: the count is the
    number of request messages less the number logged, and the run had no
    more messages logged than the request carries. *)
Theorem persisted_new_message_count :
  forall (libs : Libs) (store : Store) (runId : UUID) (rawBody : string)
         (payload : SentinelChat) (decoded : bytes) (v : ChatCompletionRequest)
         (logged : list SentinelMessage) (w w' : World) (r : Response),
    json_Decode_SentinelChat libs rawBody = Ok payload ->
    base64_DecodeString libs (SentinelChat.RequestData payload) = Ok decoded ->
    json_Unmarshal_Request libs decoded = Ok v ->
    GetMessagesForRun store runId = Ok logged ->
    apiCreateNewChatHandler libs rawBody runId store w = (Returned r, w') ->
    status r = StatusOK ->
    exists call,
      store_writes w' = store_writes w ++ [call] /\
      (length logged <= length (ChatCompletionRequest.Messages v))%nat /\
      length (CreateChatRequestCall.newRequestMessages call)
        = (length (ChatCompletionRequest.Messages v) - length logged)%nat.
Proof.
  intros libs store runId rawBody payload decoded v logged w w' r
    Hdecode Hbase64 Hjson Hlogged Hrun Hstatus.
  destruct (apiCreateNewChatHandler_cases libs _ _ _ _ _ _ Hrun)
    as [[_ Hstop] | (call & Hissued & Hwrites & _)].
  { rewrite (Hstop r eq_refl) in Hstatus. discriminate Hstatus. }
  exists call. split; [exact Hwrites|].
  destruct Hissued as (payload' & jsonRequest & requestMessages & w1 & newRequestMessages
                       & jsonResponse & response & choices & w2
                       & Hdecode' & Hrequest & Hfilter & _ & _ & ->).
  rewrite Hdecode in Hdecode'. inverts Hdecode'.
  apply validateAndDecodeRequest_ok in Hrequest.
  destruct Hrequest as (decoded' & v' & Hbase64' & Hjson' & _ & Hconverted).
  rewrite Hbase64 in Hbase64'. inverts Hbase64'.
  rewrite Hjson in Hjson'. inverts Hjson'.
  apply Forall2_length in Hconverted.
  unfold filterRequestMessages in Hfilter. rewrite Hlogged in Hfilter.
  unfold slice_from in Hfilter.
  destruct (Nat.leb_spec (length logged) (length requestMessages)) as [Hle|Hlt];
    [|discriminate Hfilter].
  inverts Hfilter. simpl. rewrite length_skipn. lia.
Qed.

Lemma persisted_new_message_count_witness :
  let request :=
    Scenario.request_of
      [Scenario.user_says "a"; Scenario.user_says "b"; Scenario.user_says "c"] in
  let libs :=
    Scenario.libs_for request
      (Scenario.response_of [Scenario.choice_of (Scenario.assistant_calls []) "stop"]) in
  let logged := [Scenario.stored "m1" "a"; Scenario.stored "m2" "b"] in
  let store := Scenario.store_with (Ok logged) [] (Ok (Some 100%N)) in
  exists r w' call,
    apiCreateNewChatHandler libs "{}" Scenario.run1 store Scenario.world0 = (Returned r, w') /\
    status r = StatusOK /\
    store_writes w' = store_writes Scenario.world0 ++ [call] /\
    (length logged <= length (ChatCompletionRequest.Messages request))%nat /\
    length (CreateChatRequestCall.newRequestMessages call) = 1%nat.
Proof.
  intros request libs logged store.
  assert (exists r w',
             apiCreateNewChatHandler libs "{}" Scenario.run1 store Scenario.world0
               = (Returned r, w') /\ status r = StatusOK) as (r & w' & Hrun & Hstatus).
  { eexists _, _. split; [vm_compute; reflexivity | reflexivity]. }
  destruct (persisted_new_message_count libs store Scenario.run1 "{}" _ _ request logged
              Scenario.world0 w' r eq_refl eq_refl eq_refl eq_refl Hrun Hstatus)
    as (call & H).
  exists r, w', call. split; [exact Hrun|]. split; [exact Hstatus|]. exact H.
Defined.

(** X9. Tool calls are resolved in the request's messages as well: when a
    message of the request has a tool call the Store has no tool for (and no
    image part lacks its image), the handler answers 400 with a request
    error and nothing is written, whatever the response is. *)
Theorem request_unknown_tool_rejected :
  forall (libs : Libs) (store : Store) (runId : UUID) (rawBody : string)
         (payload : SentinelChat) (decoded : bytes) (v : ChatCompletionRequest) (w : World),
    json_Decode_SentinelChat libs rawBody = Ok payload ->
    base64_DecodeString libs (SentinelChat.RequestData payload) = Ok decoded ->
    json_Unmarshal_Request libs decoded = Ok v ->
    Forall image_parts_have_url (ChatCompletionRequest.Messages v) ->
    Exists (fun message =>
              Exists (unresolved store runId) (ChatCompletionMessage.ToolCalls message))
      (ChatCompletionRequest.Messages v) ->
    exists e w',
      apiCreateNewChatHandler libs rawBody runId store w
        = (Returned (sendErrorResponse StatusBadRequest
                       ("Request: " +:+ ("error converting messages: " +:+ e)) ""), w') /\
      store_writes w' = store_writes w.
Proof.
  intros libs store runId rawBody payload decoded v w Hdecode Hbase64 Hjson Himages Hex.
  destruct (convertMessages_from_unresolved libs store runId _ Himages Hex [] w)
    as (e & w' & Hloop & Hwrites).
  exists e, w'. split; [|exact Hwrites].
  unfold apiCreateNewChatHandler. rewrite Hdecode.
  unfold bind at 1, validateAndDecodeRequest. rewrite Hbase64, Hjson.
  unfold bind at 1. rewrite Hloop. reflexivity.
Qed.

Lemma request_unknown_tool_rejected_witness :
  let request :=
    Scenario.request_of [Scenario.user_says "a"; Scenario.assistant_calls ["ghost"]] in
  let libs :=
    Scenario.libs_for request
      (Scenario.response_of [Scenario.choice_of (Scenario.user_says "ok") "stop"]) in
  let store := Scenario.store_with (Ok []) [("search", 7%N)] (Ok (Some 100%N)) in
  exists e w',
    apiCreateNewChatHandler libs "{}" Scenario.run1 store Scenario.world0
      = (Returned (sendErrorResponse StatusBadRequest
                     ("Request: " +:+ ("error converting messages: " +:+ e)) ""), w') /\
    store_writes w' = store_writes Scenario.world0.
Proof.
  intros request libs store.
  apply (request_unknown_tool_rejected libs store Scenario.run1 "{}" _ _ request
           Scenario.world0 eq_refl eq_refl eq_refl).
  - repeat constructor; intros parts Hparts; discriminate Hparts.
  - apply Exists_cons_tl. apply Exists_cons_hd. apply Exists_cons_hd. reflexivity.
Defined.

(** X10. When the run has no more messages logged than the request carries
    and no image part lacks its image, an ingestion whose response has a
    tool call the Store has no tool for is answered with a 400 and nothing
    is written. *)
Theorem response_unknown_tool_rejected :
  forall (libs : Libs) (store : Store) (runId : UUID) (rawBody : string)
         (payload : SentinelChat) (jsonResponse : bytes)
         (response : ChatCompletionResponse) (w : World),
    json_Decode_SentinelChat libs rawBody = Ok payload ->
    (forall decoded v,
        base64_DecodeString libs (SentinelChat.RequestData payload) = Ok decoded ->
        json_Unmarshal_Request libs decoded = Ok v ->
        Forall image_parts_have_url (ChatCompletionRequest.Messages v) /\
        forall logged,
          GetMessagesForRun store runId = Ok logged ->
          (length logged <= length (ChatCompletionRequest.Messages v))%nat) ->
    validateAndDecodeResponse libs (SentinelChat.ResponseData payload)
      = Ok (jsonResponse, response) ->
    Forall (fun choice => image_parts_have_url (ChatCompletionChoice.Message choice))
      (ChatCompletionResponse.Choices response) ->
    Exists (has_unresolved_tool_call store runId) (ChatCompletionResponse.Choices response) ->
    exists r w',
      apiCreateNewChatHandler libs rawBody runId store w = (Returned r, w') /\
      status r = StatusBadRequest /\
      store_writes w' = store_writes w.
Proof.
  intros libs store runId rawBody payload jsonResponse response w.
  apply unknown_tool_rejected_with_400.
Qed.

Lemma response_unknown_tool_rejected_witness :
  let request := Scenario.request_of [Scenario.user_says "a"; Scenario.user_says "b"] in
  let response :=
    Scenario.response_of
      [Scenario.choice_of (Scenario.assistant_calls ["ghost"]) "tool_calls"] in
  let libs := Scenario.libs_for request response in
  let store :=
    Scenario.store_with (Ok [Scenario.stored "m1" "a"]) [("search", 7%N)] (Ok (Some 100%N)) in
  exists r w',
    apiCreateNewChatHandler libs "{}" Scenario.run1 store Scenario.world0 = (Returned r, w') /\
    status r = StatusBadRequest /\
    store_writes w' = store_writes Scenario.world0.
Proof.
  intros request response libs store.
  apply (response_unknown_tool_rejected libs store Scenario.run1 "{}" _ "{response}" response
           Scenario.world0 eq_refl).
  - intros decoded v _ Hv. inversion Hv. subst v. split.
    + repeat constructor; intros parts Hparts; discriminate Hparts.
    + intros logged Hlogged. inversion Hlogged. subst logged. simpl. lia.
  - reflexivity.
  - repeat constructor; intros parts Hparts; discriminate Hparts.
  - apply Exists_cons_hd. apply Exists_cons_hd. reflexivity.
Defined.

Section IdentifierProjection.

Lemma extractChoiceIds_from_with_ids choices :
  Forall has_message_id choices ->
  forall acc, exists new,
    extractChoiceIds_from choices acc = Returned (acc ++ new) /\
    Forall2 projected choices new.
Proof.
  induction 1 as [|choice rest [messageId Hid] _ IH]; intros acc; simpl.
  - exists []. rewrite app_nil_r. split; [reflexivity | constructor].
  - destruct (choiceIdsOf choice) as [entry|r] eqn:Hentry.
    + destruct (IH (acc ++ [entry])) as (new & Heq & Hnew).
      exists (entry :: new). rewrite Heq, <- app_assoc. split; [reflexivity|].
      constructor; [apply choiceIdsOf_ok; exact Hentry | exact Hnew].
    + unfold choiceIdsOf in Hentry. rewrite Hid in Hentry. discriminate Hentry.
Qed.

Lemma extractChoiceIds_from_nil_id choices :
  Exists (fun choice => SentinelMessage.Id (SentinelChoice.Message choice) = None) choices ->
  forall acc, extractChoiceIds_from choices acc = Panicked nil_dereference.
Proof.
  induction choices as [|choice rest IH]; intros Hex acc; [inversion Hex|].
  simpl. unfold choiceIdsOf.
  destruct (SentinelMessage.Id (SentinelChoice.Message choice)) as [messageId|] eqn:Hid;
    simpl; [|reflexivity].
  apply IH. apply Exists_cons in Hex. destruct Hex as [Hhead | Htail];
    [congruence | exact Htail].
Qed.

Lemma converted_choices_have_ids choices converted :
  Forall2 converted_choice choices converted -> Forall has_message_id converted.
Proof.
  induction 1 as [|choice c choices converted (_ & _ & Hid & _) _ IH]; constructor;
    [exact Hid | exact IH].
Qed.

End IdentifierProjection.

(** X11. For choices whose messages all have an identifier,
    [extractChatIds] returns the chat identifier it was given and one entry
    per choice, in order: the choice's and its message's identifiers and one
    pair per tool call of the message, none when the message has no tool
    call list. *)
Theorem extractChatIds_with_ids :
  forall (chatId : UUID) (choices : list SentinelChoice),
    Forall has_message_id choices ->
    exists entries,
      extractChatIds chatId choices
        = Returned {| ChatIds.ChatId := chatId; ChatIds.ChoiceIds := entries |} /\
      Forall2 projected choices entries.
Proof.
  intros chatId choices Hids. unfold extractChatIds.
  destruct (extractChoiceIds_from_with_ids choices Hids []) as (new & Heq & Hnew).
  rewrite Heq. exists new. split; [reflexivity | exact Hnew].
Qed.

Lemma extractChatIds_with_ids_witness :
  let call id toolId :=
    {| SentinelToolCall.Id := id;
       SentinelToolCall.ToolId := toolId;
       SentinelToolCall.Name := Some "search";
       SentinelToolCall.Arguments := Some "{}" |} in
  let choice id messageId toolCalls :=
    {| SentinelChoice.SentinelId := id;
       SentinelChoice.Index := 0;
       SentinelChoice.Message :=
         {| SentinelMessage.Id := Some messageId;
            SentinelMessage.Role := "assistant";
            SentinelMessage.ToolCalls := toolCalls;
            SentinelMessage.Type_ := Some Text;
            SentinelMessage.Content := "" |};
       SentinelChoice.FinishReason := "tool_calls" |} in
  let choices :=
    [choice "c1" "m1" (Some [call "t1" "tool-7"; call "t2" "tool-9"]);
     choice "c2" "m2" None] in
  extractChatIds 100%N choices
    = Returned
        {| ChatIds.ChatId := 100%N;
           ChatIds.ChoiceIds :=
             [{| ChoiceIds.ChoiceId := "c1";
                 ChoiceIds.MessageId := "m1";
                 ChoiceIds.ToolCallIds :=
                   [{| ToolCallIds.ToolCallId := Some "t1";
                       ToolCallIds.ToolId := Some "tool-7" |};
                    {| ToolCallIds.ToolCallId := Some "t2";
                       ToolCallIds.ToolId := Some "tool-9" |}] |};
              {| ChoiceIds.ChoiceId := "c2";
                 ChoiceIds.MessageId := "m2";
                 ChoiceIds.ToolCallIds := [] |}] |} /\
  exists entries,
    extractChatIds 100%N choices
      = Returned {| ChatIds.ChatId := 100%N; ChatIds.ChoiceIds := entries |} /\
    Forall2 projected choices entries.
Proof.
  intros call choice choices. split; [reflexivity|].
  apply (extractChatIds_with_ids 100%N choices).
  repeat constructor; eexists; reflexivity.
Defined.

(** X12. [extractChatIds] dereferences the identifier of every choice's
    message: a single choice whose message has none makes it panic, however
    many choices precede or follow it. *)
Theorem extractChatIds_nil_message_id_panics :
  forall (chatId : UUID) (choices : list SentinelChoice),
    Exists (fun choice => SentinelMessage.Id (SentinelChoice.Message choice) = None) choices ->
    extractChatIds chatId choices = Panicked nil_dereference.
Proof.
  intros chatId choices Hex. unfold extractChatIds.
  rewrite (extractChoiceIds_from_nil_id choices Hex []). reflexivity.
Qed.

Lemma extractChatIds_nil_message_id_panics_witness :
  let choice id :=
    {| SentinelChoice.SentinelId := "c";
       SentinelChoice.Index := 0;
       SentinelChoice.Message :=
         {| SentinelMessage.Id := id;
            SentinelMessage.Role := "assistant";
            SentinelMessage.ToolCalls := Some [];
            SentinelMessage.Type_ := Some Text;
            SentinelMessage.Content := "" |};
       SentinelChoice.FinishReason := "stop" |} in
  extractChatIds 100%N [choice (Some "m1"); choice None; choice (Some "m3")]
    = Panicked nil_dereference.
Proof.
  intros choice.
  apply (extractChatIds_nil_message_id_panics 100%N
           [choice (Some "m1"); choice None; choice (Some "m3")]).
  apply Exists_cons_tl. apply Exists_cons_hd. reflexivity.
Defined.

(** X13. An ingestion issues at most one write to the Store, for the run it
    was called for and with the provider tag "openai"; what was written
    before is left as it was. *)
Theorem ingestion_writes_at_most_once :
  forall (libs : Libs) (store : Store) (runId : UUID) (rawBody : string)
         (w w' : World) (o : outcome Response),
    apiCreateNewChatHandler libs rawBody runId store w = (o, w') ->
    store_writes w' = store_writes w \/
    exists call,
      store_writes w' = store_writes w ++ [call] /\
      CreateChatRequestCall.runId call = runId /\
      CreateChatRequestCall.provider call = "openai".
Proof.
  intros libs store runId rawBody w w' o Hrun.
  destruct (apiCreateNewChatHandler_cases libs _ _ _ _ _ _ Hrun)
    as [[Hstop _] | (call & Hissued & Hwrites & _)]; [left; exact Hstop|].
  right. exists call. split; [exact Hwrites|].
  destruct Hissued as (? & ? & ? & ? & ? & ? & ? & ? & ? & _ & _ & _ & _ & _ & ->).
  split; reflexivity.
Qed.

Lemma ingestion_writes_at_most_once_witness :
  let libs :=
    Scenario.libs_for (Scenario.request_of [Scenario.user_says "a"])
      (Scenario.response_of [Scenario.choice_of (Scenario.user_says "ok") "stop"]) in
  let store := Scenario.store_with (Ok []) [] (Err "disk full") in
  exists o w',
    apiCreateNewChatHandler libs "{}" Scenario.run1 store Scenario.world0 = (o, w') /\
    (store_writes w' = store_writes Scenario.world0 \/
     exists call,
       store_writes w' = store_writes Scenario.world0 ++ [call] /\
       CreateChatRequestCall.runId call = Scenario.run1 /\
       CreateChatRequestCall.provider call = "openai").
Proof.
  intros libs store.
  destruct (apiCreateNewChatHandler libs "{}" Scenario.run1 store Scenario.world0)
    as [o w'] eqn:Hrun.
  exists o, w'. split; [reflexivity|].
  exact (ingestion_writes_at_most_once libs store Scenario.run1 "{}" Scenario.world0 w' o
           Hrun).
Defined.

(** X14. A 200 from the ingestion handler comes after the write: the Store
    answered that write with a chat identifier, and the response carries
    that identifier. The request and response bytes written are the decoded
    documents marshalled again. *)
Theorem ok_response_carries_store_chat_id :
  forall (libs : Libs) (store : Store) (runId : UUID) (rawBody : string)
         (w w' : World) (r : Response),
    apiCreateNewChatHandler libs rawBody runId store w = (Returned r, w') ->
    status r = StatusOK ->
    exists call chatIds payload decoded v jsonResponse response,
      store_writes w' = store_writes w ++ [call] /\
      body r = JSONChatIds chatIds /\
      CreateChatRequest store runId (CreateChatRequestCall.jsonRequest call)
        (CreateChatRequestCall.jsonResponse call) (CreateChatRequestCall.choices call)
        "openai" (CreateChatRequestCall.newRequestMessages call)
        = Ok (Some (ChatIds.ChatId chatIds)) /\
      json_Decode_SentinelChat libs rawBody = Ok payload /\
      base64_DecodeString libs (SentinelChat.RequestData payload) = Ok decoded /\
      json_Unmarshal_Request libs decoded = Ok v /\
      json_Marshal_Request libs v = Ok (CreateChatRequestCall.jsonRequest call) /\
      validateAndDecodeResponse libs (SentinelChat.ResponseData payload)
        = Ok (jsonResponse, response) /\
      json_Marshal_Response libs response = Ok (CreateChatRequestCall.jsonResponse call).
Proof.
  intros libs store runId rawBody w w' r Hrun Hstatus.
  destruct (apiCreateNewChatHandler_cases libs _ _ _ _ _ _ Hrun)
    as [[_ Hstop] | (call & Hissued & Hwrites & Hafter)].
  { rewrite (Hstop r eq_refl) in Hstatus. discriminate Hstatus. }
  destruct Hissued as (payload & jsonRequest & requestMessages & w1 & newRequestMessages
                       & jsonResponse & response & choices & w2
                       & Hdecode & Hrequest & _ & Hresponse & _ & ->).
  unfold after_write in Hafter. simpl in Hafter.
  destruct (CreateChatRequest store runId jsonRequest jsonResponse choices "openai"
              newRequestMessages) as [[chatId|]|e] eqn:Hcreate.
  2: discriminate Hafter.
  2: { inverts Hafter. discriminate Hstatus. }
  destruct (extractChatIds chatId choices) as [chatIds|reason] eqn:Hextract;
    [|discriminate Hafter].
  inverts Hafter.
  apply extractChatIds_ok in Hextract. destruct Hextract as [Hid _].
  apply validateAndDecodeRequest_ok in Hrequest.
  destruct Hrequest as (decoded & v & Hbase64 & Hjson & Hmarshal & _).
  exists (CreateChatRequestCall.mk runId jsonRequest jsonResponse choices "openai"
            newRequestMessages), chatIds, payload, decoded, v, jsonResponse, response.
  simpl. rewrite Hid.
  repeat split; try assumption.
  unfold validateAndDecodeResponse in Hresponse.
  destruct (base64_DecodeString libs (SentinelChat.ResponseData payload)); [|discriminate].
  destruct (json_Unmarshal_Response libs _); [|discriminate].
  destruct (json_Marshal_Response libs _) eqn:Hm; inverts Hresponse. exact Hm.
Qed.

Lemma ok_response_carries_store_chat_id_witness :
  let libs :=
    Scenario.libs_for (Scenario.request_of [Scenario.user_says "a"])
      (Scenario.response_of [Scenario.choice_of (Scenario.user_says "ok") "stop"]) in
  let store := Scenario.store_with (Ok []) [] (Ok (Some 100%N)) in
  exists r w' call chatIds,
    apiCreateNewChatHandler libs "{}" Scenario.run1 store Scenario.world0 = (Returned r, w') /\
    status r = StatusOK /\
    store_writes w' = store_writes Scenario.world0 ++ [call] /\
    body r = JSONChatIds chatIds /\
    ChatIds.ChatId chatIds = 100%N.
Proof.
  intros libs store.
  assert (exists r w',
             apiCreateNewChatHandler libs "{}" Scenario.run1 store Scenario.world0
               = (Returned r, w') /\ status r = StatusOK) as (r & w' & Hrun & Hstatus).
  { eexists _, _. split; [vm_compute; reflexivity | reflexivity]. }
  destruct (ok_response_carries_store_chat_id libs store Scenario.run1 "{}"
              Scenario.world0 w' r Hrun Hstatus)
    as (call & chatIds & payload & decoded & v & jsonResponse & response
        & Hwrites & Hbody & Hcreate & _).
  exists r, w', call, chatIds.
  repeat split; try assumption.
  simpl in Hcreate. inversion Hcreate. reflexivity.
Defined.

(** X15. Once every earlier stage has succeeded and the Store answers the
    write with a chat identifier, the handler answers 200: the projection of
    choices that [convertChoices] made never fails, and it has one entry per
    choice of the response. *)
Theorem accepted_write_answers_200 :
  forall (libs : Libs) (store : Store) (runId : UUID) (rawBody : string)
         (payload : SentinelChat) (jsonRequest jsonResponse : bytes)
         (requestMessages newRequestMessages : list SentinelMessage)
         (response : ChatCompletionResponse) (choices : list SentinelChoice)
         (chatId : UUID) (w w1 w2 : World),
    json_Decode_SentinelChat libs rawBody = Ok payload ->
    validateAndDecodeRequest libs (SentinelChat.RequestData payload) runId store w
      = (Returned (Ok (jsonRequest, requestMessages)), w1) ->
    filterRequestMessages requestMessages runId store = Returned (Ok newRequestMessages) ->
    validateAndDecodeResponse libs (SentinelChat.ResponseData payload)
      = Ok (jsonResponse, response) ->
    convertChoices libs (ChatCompletionResponse.Choices response) runId store w1
      = (Returned (Ok choices), w2) ->
    CreateChatRequest store runId jsonRequest jsonResponse choices "openai"
      newRequestMessages = Ok (Some chatId) ->
    exists entries,
      fst (apiCreateNewChatHandler libs rawBody runId store w)
        = Returned (respondJSON
                      (JSONChatIds {| ChatIds.ChatId := chatId;
                                      ChatIds.ChoiceIds := entries |}) StatusOK) /\
      Forall2 projected choices entries /\
      length entries = length (ChatCompletionResponse.Choices response).
Proof.
  intros libs store runId rawBody payload jsonRequest jsonResponse requestMessages
    newRequestMessages response choices chatId w w1 w2
    Hdecode Hrequest Hfilter Hresponse Hchoices Hcreate.
  pose proof Hchoices as Hconverted.
  apply convertChoices_from_ok in Hconverted.
  destruct Hconverted as (new & Heq & Hconverted). simpl in Heq. subst new.
  destruct (extractChoiceIds_from_with_ids choices
              (converted_choices_have_ids _ _ Hconverted) []) as (entries & Hextract & Hrel).
  exists entries. split; [|split; [exact Hrel|]].
  - unfold apiCreateNewChatHandler. rewrite Hdecode.
    unfold bind at 1. rewrite Hrequest.
    unfold bind at 1, lift at 1. rewrite Hfilter, Hresponse.
    unfold bind at 1. rewrite Hchoices.
    unfold bind at 1, store_CreateChatRequest. rewrite Hcreate.
    unfold bind, lift, ret, deref, extractChatIds. rewrite Hextract. reflexivity.
  - apply Forall2_length in Hrel. apply Forall2_length in Hconverted. lia.
Qed.

Lemma accepted_write_answers_200_witness :
  let response :=
    Scenario.response_of
      [Scenario.choice_of (Scenario.assistant_calls ["search"; "fetch"]) "tool_calls";
       Scenario.choice_of (Scenario.user_says "done") "stop"] in
  let libs := Scenario.libs_for (Scenario.request_of [Scenario.user_says "a"]) response in
  let store :=
    Scenario.store_with (Ok []) [("search", 7%N); ("fetch", 9%N)] (Ok (Some 100%N)) in
  fst (apiCreateNewChatHandler libs "{}" Scenario.run1 store Scenario.world0)
    = Returned
        (respondJSON
           (JSONChatIds
              {| ChatIds.ChatId := 100%N;
                 ChatIds.ChoiceIds :=
                   [{| ChoiceIds.ChoiceId := "4";
                       ChoiceIds.MessageId := "3";
                       ChoiceIds.ToolCallIds :=
                         [{| ToolCallIds.ToolCallId := Some "1";
                             ToolCallIds.ToolId := Some "7" |};
                          {| ToolCallIds.ToolCallId := Some "2";
                             ToolCallIds.ToolId := Some "9" |}] |};
                    {| ChoiceIds.ChoiceId := "6";
                       ChoiceIds.MessageId := "5";
                       ChoiceIds.ToolCallIds := [] |}] |}) StatusOK) /\
  exists choices entries,
    fst (apiCreateNewChatHandler libs "{}" Scenario.run1 store Scenario.world0)
      = Returned (respondJSON
                    (JSONChatIds {| ChatIds.ChatId := 100%N;
                                    ChatIds.ChoiceIds := entries |}) StatusOK) /\
    Forall2 projected choices entries /\
    length entries = length (ChatCompletionResponse.Choices response) /\
    length entries = 2%nat.
Proof.
  intros response libs store. split; [vm_compute; reflexivity|].
  assert (exists choices w2,
             convertChoices libs (ChatCompletionResponse.Choices response) Scenario.run1 store
               {| uuid_source := 1; store_writes := [] |}
               = (Returned (Ok choices), w2)) as (choices & w2 & Hchoices).
  { eexists _, _. vm_compute. reflexivity. }
  destruct (accepted_write_answers_200 libs store Scenario.run1 "{}"
              {| SentinelChat.RequestData := "cmVxdWVzdA==";
                 SentinelChat.ResponseData := "cmVzcG9uc2U=" |}
              "{request}" "{response}" [Scenario.stored "0" "a"] [Scenario.stored "0" "a"]
              response choices 100%N Scenario.world0
              {| uuid_source := 1; store_writes := [] |} w2
              eq_refl eq_refl eq_refl eq_refl Hchoices eq_refl)
    as (entries & Hrun & Hrel & Hlen).
  exists choices, entries. repeat split; assumption.
Defined.

(** X16. The handler dereferences the chat identifier the Store returns
    without a nil check: when the Store answers the write with neither an
    identifier nor an error, the handler panics after the write was issued
    and no response is sent. *)
Theorem nil_chat_id_panics_after_write :
  forall (libs : Libs) (store : Store) (runId : UUID) (rawBody : string)
         (payload : SentinelChat) (jsonRequest jsonResponse : bytes)
         (requestMessages newRequestMessages : list SentinelMessage)
         (response : ChatCompletionResponse) (choices : list SentinelChoice)
         (w w1 w2 : World),
    json_Decode_SentinelChat libs rawBody = Ok payload ->
    validateAndDecodeRequest libs (SentinelChat.RequestData payload) runId store w
      = (Returned (Ok (jsonRequest, requestMessages)), w1) ->
    filterRequestMessages requestMessages runId store = Returned (Ok newRequestMessages) ->
    validateAndDecodeResponse libs (SentinelChat.ResponseData payload)
      = Ok (jsonResponse, response) ->
    convertChoices libs (ChatCompletionResponse.Choices response) runId store w1
      = (Returned (Ok choices), w2) ->
    CreateChatRequest store runId jsonRequest jsonResponse choices "openai"
      newRequestMessages = Ok None ->
    apiCreateNewChatHandler libs rawBody runId store w
      = (Panicked nil_dereference,
         {| uuid_source := uuid_source w2;
            store_writes := store_writes w2 ++
              [CreateChatRequestCall.mk runId jsonRequest jsonResponse choices "openai"
                 newRequestMessages] |}).
Proof.
  intros libs store runId rawBody payload jsonRequest jsonResponse requestMessages
    newRequestMessages response choices w w1 w2
    Hdecode Hrequest Hfilter Hresponse Hchoices Hcreate.
  unfold apiCreateNewChatHandler. rewrite Hdecode.
  unfold bind at 1. rewrite Hrequest.
  unfold bind at 1, lift at 1. rewrite Hfilter, Hresponse.
  unfold bind at 1. rewrite Hchoices.
  unfold bind at 1, store_CreateChatRequest. rewrite Hcreate. reflexivity.
Qed.

Lemma nil_chat_id_panics_after_write_witness :
  let libs :=
    Scenario.libs_for (Scenario.request_of [Scenario.user_says "a"])
      (Scenario.response_of []) in
  let store := Scenario.store_with (Ok []) [] (Ok None) in
  exists w',
    apiCreateNewChatHandler libs "{}" Scenario.run1 store Scenario.world0
      = (Panicked nil_dereference, w') /\
    length (store_writes w') = 1%nat.
Proof.
  intros libs store. eexists. split.
  - eapply (nil_chat_id_panics_after_write libs store Scenario.run1 "{}" _ _ _ _ _ _ []
              Scenario.world0).
    + reflexivity.
    + vm_compute. reflexivity.
    + reflexivity.
    + reflexivity.
    + reflexivity.
    + reflexivity.
  - reflexivity.
Defined.

Section ChainStates.

Lemma collectChainStates_prefix (store : Store) toolCallId before states :
  Forall2 (chain_state store toolCallId) before states ->
  forall rest acc,
    collectChainStates (before ++ rest) toolCallId store acc
      = collectChainStates rest toolCallId store (acc ++ states).
Proof.
  induction 1 as [|chain state before states (executionId & Hexecution & Hstate) _ IH];
    intros rest acc; simpl.
  - rewrite app_nil_r. reflexivity.
  - rewrite Hexecution. simpl. rewrite Hstate. simpl.
    rewrite IH, <- app_assoc. reflexivity.
Qed.

Lemma collectChainStates_inr (store : Store) toolCallId chains :
  forall acc states,
    collectChainStates chains toolCallId store acc = Returned (inr states) ->
    exists new, states = acc ++ new /\ Forall2 (chain_state store toolCallId) chains new.
Proof.
  induction chains as [|chain rest IH]; intros acc states H; simpl in H.
  - inverts H. exists []. rewrite app_nil_r. split; [reflexivity | constructor].
  - destruct (GetChainExecutionFromChainAndToolCall store _ _) as [[executionId|]|e]
      eqn:Hexecution; simpl in H; try discriminate H.
    destruct (GetChainExecutionState store executionId) as [[state|]|e] eqn:Hstate;
      simpl in H; try discriminate H.
    apply IH in H. destruct H as (new & -> & Hnew).
    exists (state :: new). rewrite <- app_assoc. split; [reflexivity|].
    constructor; [|exact Hnew]. exists executionId. split; assumption.
Qed.


End ChainStates.




(** X17. A 200 from the state handler carries the tool call the Store has
    under the identifier and one chain state per chain of its tool, in the
    order in which the Store lists the chains: each is the state of that
    chain's execution against the tool call. *)
Theorem state_handler_chain_states_in_order :
  forall (libs : Libs) (getToolCallStatus : UUID -> Store -> result Status)
         (toolCallId : UUID) (store : Store) (execution : RunExecution),
    apiGetToolCallStateHandler libs getToolCallStatus toolCallId store
      = Returned (respondJSON (JSONRunExecution execution) StatusOK) ->
    exists toolId chains,
      GetToolCall store toolCallId = Ok (Some (RunExecution.Toolcall execution)) /\
      uuid_Parse libs (SentinelToolCall.ToolId (RunExecution.Toolcall execution))
        = Ok toolId /\
      GetSupervisorChains store toolId = Ok chains /\
      Forall2 (chain_state store toolCallId) chains (RunExecution.Chains execution).
Proof.
  intros libs getToolCallStatus toolCallId store execution H.
  apply apiGetToolCallStateHandler_ok in H.
  destruct H as (toolCall & toolId & chains & Htool & Hparse & Hchains & Hcollect & Heq & _).
  subst toolCall. exists toolId, chains. repeat split; try assumption.
  apply collectChainStates_inr in Hcollect. destruct Hcollect as (new & Hnew & Hrel).
  simpl in Hnew. rewrite Hnew. exact Hrel.
Qed.

Lemma state_handler_chain_states_in_order_witness :
  let libs := Scenario.libs_for (Scenario.request_of []) (Scenario.response_of []) in
  let state_of executionId :=
    {| ChainExecutionState.ChainExecutionId := executionId;
       ChainExecutionState.Status_ := if N.eqb executionId 31 then Approved else Pending |} in
  let store :=
    Scenario.store_with_chains [{| Chain.ChainId := 21%N |}; {| Chain.ChainId := 22%N |}]
      (fun chainId => Ok (Some (chainId + 10)%N))
      (fun executionId => Ok (Some (state_of executionId))) in
  let execution :=
    {| RunExecution.Chains := [state_of 31%N; state_of 32%N];
       RunExecution.Toolcall := Scenario.search_call;
       RunExecution.Status_ := Approved |} in
  apiGetToolCallStateHandler libs Scenario.status_on_record 31%N store
    = Returned (respondJSON (JSONRunExecution execution) StatusOK) /\
  exists toolId chains,
    GetToolCall store 31%N = Ok (Some (RunExecution.Toolcall execution)) /\
    uuid_Parse libs (SentinelToolCall.ToolId (RunExecution.Toolcall execution)) = Ok toolId /\
    GetSupervisorChains store toolId = Ok chains /\
    Forall2 (chain_state store 31%N) chains (RunExecution.Chains execution).
Proof.
  intros libs state_of store execution.
  assert (apiGetToolCallStateHandler libs Scenario.status_on_record 31%N store
          = Returned (respondJSON (JSONRunExecution execution) StatusOK)) as Hrun
    by reflexivity.
  split; [exact Hrun|].
  exact (state_handler_chain_states_in_order libs Scenario.status_on_record 31%N store
           execution Hrun).
Defined.

(** X18. When the Store has the tool call, its tool identifier parses, every
    chain of the tool has an execution against the tool call with a state,
    and the status policy answers, the state handler answers 200 with the
    tool call, those states in chain order and that status; with no chain
    at all the list is empty. *)
Theorem state_handler_answers_200 :
  forall (libs : Libs) (getToolCallStatus : UUID -> Store -> result Status)
         (toolCallId : UUID) (store : Store) (toolCall : SentinelToolCall) (toolId : UUID)
         (chains : list Chain) (states : list ChainExecutionState) (status : Status),
    GetToolCall store toolCallId = Ok (Some toolCall) ->
    uuid_Parse libs (SentinelToolCall.ToolId toolCall) = Ok toolId ->
    GetSupervisorChains store toolId = Ok chains ->
    Forall2 (chain_state store toolCallId) chains states ->
    getToolCallStatus toolCallId store = Ok status ->
    apiGetToolCallStateHandler libs getToolCallStatus toolCallId store
      = Returned (respondJSON
                    (JSONRunExecution {| RunExecution.Chains := states;
                                         RunExecution.Toolcall := toolCall;
                                         RunExecution.Status_ := status |}) StatusOK).
Proof.
  intros libs getToolCallStatus toolCallId store toolCall toolId chains states status
    Htool Hparse Hchains Hstates Hstatus.
  unfold apiGetToolCallStateHandler. rewrite Htool, Hparse, Hchains.
  rewrite <- (app_nil_r chains).
  rewrite (collectChainStates_prefix store toolCallId chains states Hstates [] []).
  simpl. rewrite Hstatus. reflexivity.
Qed.

Lemma state_handler_answers_200_witness :
  let libs := Scenario.libs_for (Scenario.request_of []) (Scenario.response_of []) in
  let state_of executionId status :=
    {| ChainExecutionState.ChainExecutionId := executionId;
       ChainExecutionState.Status_ := status |} in
  let store :=
    Scenario.store_with_chains [{| Chain.ChainId := 21%N |}; {| Chain.ChainId := 22%N |}]
      (fun chainId => Ok (Some (chainId + 10)%N))
      (fun executionId =>
         Ok (Some (state_of executionId (if N.eqb executionId 31 then Approved else Rejected)))) in
  apiGetToolCallStateHandler libs Scenario.status_on_record 31%N store
    = Returned (respondJSON
                  (JSONRunExecution
                     {| RunExecution.Chains := [state_of 31%N Approved; state_of 32%N Rejected];
                        RunExecution.Toolcall := Scenario.search_call;
                        RunExecution.Status_ := Approved |}) StatusOK).
Proof.
  intros libs state_of store.
  apply (state_handler_answers_200 libs Scenario.status_on_record 31%N store
           Scenario.search_call 6%N
           [{| Chain.ChainId := 21%N |}; {| Chain.ChainId := 22%N |}]
           [state_of 31%N Approved; state_of 32%N Rejected] Approved); try reflexivity.
  constructor; [exists 31%N; split; reflexivity|].
  constructor; [exists 32%N; split; reflexivity|].
  constructor.
Defined.

(** X19. The state handler fails fast on a Store error in the chain loop:
    when the chains before one all have their states and the lookup of that
    chain's execution, or of the state of its execution, fails, the answer
    is a 500 with the Store's error as details; the states collected so far
    and the chains after it play no part. *)
Theorem chain_lookup_error_is_500 :
  forall (libs : Libs) (getToolCallStatus : UUID -> Store -> result Status)
         (toolCallId : UUID) (store : Store) (toolCall : SentinelToolCall) (toolId : UUID)
         (before : list Chain) (chain : Chain) (rest : list Chain)
         (states : list ChainExecutionState),
    GetToolCall store toolCallId = Ok (Some toolCall) ->
    uuid_Parse libs (SentinelToolCall.ToolId toolCall) = Ok toolId ->
    GetSupervisorChains store toolId = Ok (before ++ chain :: rest) ->
    Forall2 (chain_state store toolCallId) before states ->
    (forall e,
        GetChainExecutionFromChainAndToolCall store (Chain.ChainId chain) toolCallId = Err e ->
        apiGetToolCallStateHandler libs getToolCallStatus toolCallId store
          = Returned (sendErrorResponse StatusInternalServerError
                        "error getting chain execution" e)) /\
    (forall executionId e,
        GetChainExecutionFromChainAndToolCall store (Chain.ChainId chain) toolCallId
          = Ok (Some executionId) ->
        GetChainExecutionState store executionId = Err e ->
        apiGetToolCallStateHandler libs getToolCallStatus toolCallId store
          = Returned (sendErrorResponse StatusInternalServerError
                        "error getting chain execution state" e)).
Proof.
  intros libs getToolCallStatus toolCallId store toolCall toolId before chain rest states
    Htool Hparse Hchains Hstates.
  split.
  - intros e Hexecution.
    unfold apiGetToolCallStateHandler. rewrite Htool, Hparse, Hchains.
    rewrite (collectChainStates_prefix store toolCallId before states Hstates). simpl.
    rewrite Hexecution. reflexivity.
  - intros executionId e Hexecution Hstate.
    unfold apiGetToolCallStateHandler. rewrite Htool, Hparse, Hchains.
    rewrite (collectChainStates_prefix store toolCallId before states Hstates). simpl.
    rewrite Hexecution. simpl. rewrite Hstate. reflexivity.
Qed.

Lemma chain_lookup_error_is_500_witness :
  let libs := Scenario.libs_for (Scenario.request_of []) (Scenario.response_of []) in
  let approved :=
    {| ChainExecutionState.ChainExecutionId := 31%N; ChainExecutionState.Status_ := Approved |} in
  let store :=
    Scenario.store_with_chains [{| Chain.ChainId := 21%N |}; {| Chain.ChainId := 22%N |}]
      (fun chainId => if N.eqb chainId 21 then Ok (Some 31%N) else Err "timeout")
      (fun _ => Ok (Some approved)) in
  apiGetToolCallStateHandler libs Scenario.status_on_record 11%N store
    = Returned (sendErrorResponse StatusInternalServerError
                  "error getting chain execution" "timeout").
Proof.
  intros libs approved store.
  assert (Forall2 (chain_state store 11%N) [{| Chain.ChainId := 21%N |}] [approved])
    as Hbefore.
  { constructor; [|constructor]. exists 31%N. split; reflexivity. }
  apply (proj1 (chain_lookup_error_is_500 libs Scenario.status_on_record 11%N store
                  Scenario.search_call 6%N [{| Chain.ChainId := 21%N |}]
                  {| Chain.ChainId := 22%N |} [] [approved]
                  eq_refl eq_refl eq_refl Hbefore)).
  reflexivity.
Defined.

(** X20. The state handler dereferences the state the Store returns for a
    chain execution without a nil check: when the Store has the execution
    but answers the state lookup with neither a state nor an error, the
    handler panics, wherever in the list the chain is. *)
Theorem missing_chain_state_panics :
  forall (libs : Libs) (getToolCallStatus : UUID -> Store -> result Status)
         (toolCallId : UUID) (store : Store) (toolCall : SentinelToolCall) (toolId : UUID)
         (before : list Chain) (chain : Chain) (rest : list Chain)
         (states : list ChainExecutionState) (executionId : UUID),
    GetToolCall store toolCallId = Ok (Some toolCall) ->
    uuid_Parse libs (SentinelToolCall.ToolId toolCall) = Ok toolId ->
    GetSupervisorChains store toolId = Ok (before ++ chain :: rest) ->
    Forall2 (chain_state store toolCallId) before states ->
    GetChainExecutionFromChainAndToolCall store (Chain.ChainId chain) toolCallId
      = Ok (Some executionId) ->
    GetChainExecutionState store executionId = Ok None ->
    apiGetToolCallStateHandler libs getToolCallStatus toolCallId store
      = Panicked nil_dereference.
Proof.
  intros libs getToolCallStatus toolCallId store toolCall toolId before chain rest states
    executionId Htool Hparse Hchains Hstates Hexecution Hstate.
  unfold apiGetToolCallStateHandler. rewrite Htool, Hparse, Hchains.
  rewrite (collectChainStates_prefix store toolCallId before states Hstates). simpl.
  rewrite Hexecution. simpl. rewrite Hstate. reflexivity.
Qed.

Lemma missing_chain_state_panics_witness :
  let libs := Scenario.libs_for (Scenario.request_of []) (Scenario.response_of []) in
  let store :=
    Scenario.store_with_chains [{| Chain.ChainId := 21%N |}] (fun _ => Ok (Some 31%N))
      (fun _ => Ok None) in
  apiGetToolCallStateHandler libs Scenario.status_on_record 11%N store
    = Panicked nil_dereference.
Proof.
  intros libs store.
  apply (missing_chain_state_panics libs Scenario.status_on_record 11%N store
           Scenario.search_call 6%N [] {| Chain.ChainId := 21%N |} [] [] 31%N);
    try reflexivity.
  constructor.
Defined.

(** X21. The state handler answers 404 exactly when the Store has no tool
    call under the identifier (and reports no error); every other response
    it sends is a 200 or a 500, never a 400. *)
Theorem state_handler_status_codes :
  forall (libs : Libs) (getToolCallStatus : UUID -> Store -> result Status)
         (toolCallId : UUID) (store : Store) (r : Response),
    apiGetToolCallStateHandler libs getToolCallStatus toolCallId store = Returned r ->
    (status r = StatusNotFound <-> GetToolCall store toolCallId = Ok None) /\
    (status r = StatusOK \/ status r = StatusNotFound \/
     status r = StatusInternalServerError).
Proof.
  intros libs getToolCallStatus toolCallId store r H.
  unfold apiGetToolCallStateHandler in H.
  destruct (GetToolCall store toolCallId) as [[toolCall|]|e].
  2: { inverts H. simpl. split; [split; reflexivity | auto]. }
  2: { inverts H. simpl. split; [split; intros Heq; discriminate Heq | auto]. }
  assert (status r = StatusOK \/ status r = StatusInternalServerError) as Hcodes.
  { destruct (uuid_Parse libs _) as [toolId|e]; [|inverts H; auto].
    destruct (GetSupervisorChains store toolId) as [chains|e]; [|inverts H; auto].
    destruct (collectChainStates chains toolCallId store []) as [[response|states]|reason]
      eqn:Hcollect; [| |discriminate H].
    - inverts H. right. exact (collectChainStates_early_response _ _ _ _ _ Hcollect).
    - destruct (getToolCallStatus toolCallId store); inverts H; auto. }
  split; [|tauto].
  split; intros Heq; [|discriminate Heq].
  destruct Hcodes as [Hcode | Hcode]; rewrite Hcode in Heq; discriminate Heq.
Qed.

Lemma state_handler_status_codes_witness :
  let libs := Scenario.libs_for (Scenario.request_of []) (Scenario.response_of []) in
  let store := Scenario.store_with (Ok []) [] (Ok None) in
  let r := sendErrorResponse StatusNotFound "Run not found" "" in
  apiGetToolCallStateHandler libs Scenario.status_on_record 11%N store = Returned r /\
  (status r = StatusNotFound <-> GetToolCall store 11%N = Ok None).
Proof.
  intros libs store r.
  assert (apiGetToolCallStateHandler libs Scenario.status_on_record 11%N store = Returned r)
    as Hrun by reflexivity.
  split; [exact Hrun|].
  exact (proj1 (state_handler_status_codes libs Scenario.status_on_record 11%N store r Hrun)).
Defined.

(** X22. What the read handler for a run's messages shows is what an
    ingestion for that run cuts off: when it answers 200 with [n] messages,
    filtering a request of at least [n] messages returns the request without
    its first [n]; when it answers 500, filtering fails with an error as
    well. *)
Theorem run_messages_shown_are_cut_off :
  forall (store : Store) (runId : UUID) (requestMessages : list SentinelMessage),
    (forall messages,
        apiGetRunMessagesHandler runId store = respondJSON (JSONMessages messages) StatusOK ->
        (length messages <= length requestMessages)%nat ->
        filterRequestMessages requestMessages runId store
          = Returned (Ok (skipn (length messages) requestMessages))) /\
    (status (apiGetRunMessagesHandler runId store) = StatusInternalServerError ->
     exists e, filterRequestMessages requestMessages runId store = Returned (Err e)).
Proof.
  intros store runId requestMessages.
  unfold apiGetRunMessagesHandler, filterRequestMessages.
  destruct (GetMessagesForRun store runId) as [logged|e]; split.
  - intros messages Heq Hle. inverts Heq. unfold slice_from.
    destruct (Nat.leb_spec (length messages) (length requestMessages)); [reflexivity | lia].
  - intros Hstatus. discriminate Hstatus.
  - intros messages Heq. discriminate Heq.
  - intros _. eauto.
Qed.

Lemma run_messages_shown_are_cut_off_witness :
  let logged := [Scenario.stored "m1" "a"; Scenario.stored "m2" "b"] in
  let store := Scenario.store_with (Ok logged) [] (Ok (Some 100%N)) in
  let requestMessages :=
    [Scenario.stored "0" "a"; Scenario.stored "1" "b"; Scenario.stored "2" "c"] in
  apiGetRunMessagesHandler Scenario.run1 store = respondJSON (JSONMessages logged) StatusOK /\
  filterRequestMessages requestMessages Scenario.run1 store
    = Returned (Ok [Scenario.stored "2" "c"]).
Proof.
  intros logged store requestMessages. split; [reflexivity|].
  apply (proj1 (run_messages_shown_are_cut_off store Scenario.run1 requestMessages) logged).
  - reflexivity.
  - simpl. lia.
Defined.

(** X23. The two handlers that look a tool call up treat the lookup alike:
    when the Store reports an error both answer the same 500, when it has
    no such tool call both answer 404, and when it has one the tool call
    handler answers 200 with it and a 200 of the state handler carries the
    same tool call. *)
Theorem tool_call_lookups_agree :
  forall (libs : Libs) (getToolCallStatus : UUID -> Store -> result Status)
         (id : UUID) (store : Store),
    match GetToolCall store id with
    | Err e =>
        apiGetToolCallHandler id store
          = sendErrorResponse StatusInternalServerError "error getting tool call" e /\
        apiGetToolCallStateHandler libs getToolCallStatus id store
          = Returned (apiGetToolCallHandler id store)
    | Ok None =>
        status (apiGetToolCallHandler id store) = StatusNotFound /\
        exists r,
          apiGetToolCallStateHandler libs getToolCallStatus id store = Returned r /\
          status r = StatusNotFound
    | Ok (Some toolCall) =>
        apiGetToolCallHandler id store = respondJSON (JSONToolCall toolCall) StatusOK /\
        forall execution,
          apiGetToolCallStateHandler libs getToolCallStatus id store
            = Returned (respondJSON (JSONRunExecution execution) StatusOK) ->
          RunExecution.Toolcall execution = toolCall
    end.
Proof.
  intros libs getToolCallStatus id store.
  destruct (GetToolCall store id) as [[toolCall|]|e] eqn:Hlookup.
  - split; [unfold apiGetToolCallHandler; rewrite Hlookup; reflexivity|].
    intros execution H. apply apiGetToolCallStateHandler_ok in H.
    destruct H as (toolCall' & _ & _ & Htool & _ & _ & _ & Heq & _). congruence.
  - unfold apiGetToolCallHandler, apiGetToolCallStateHandler. rewrite Hlookup.
    split; [reflexivity|]. eexists. split; reflexivity.
  - unfold apiGetToolCallHandler, apiGetToolCallStateHandler. rewrite Hlookup.
    split; reflexivity.
Qed.
